(** * kinetic-app-v2: chore recurrence, rotation and due-state grouping

    A shallow embedding of the scheduling logic of the application:

    - [ChoresContext] : [calculateNextDueDate], [getNextAssignee],
      [createChore], [updateChore], [completeChore]
      (src/contexts/ChoresContext.tsx);
    - [ChoresForm]    : [validateForm], [handleSubmit]
      (src/components/chore/ChoresForm.tsx);
    - [ChoresList]    : [groupChoresByStatus] (components/chore/ChoresList);
    - [TodosContext]  : [updateTodo], [toggleTodoStatus].

    The code runs on the JavaScript [Date] object and on the date-fns
    helpers [addDays], [format], [isPast], [isToday] and [isThisWeek];
    modules [JS] and [DateFns] give the part of their semantics the
    code relies on, following ECMA-262 (section "Date Objects") and the
    date-fns sources. *)

From Stdlib Require Import ZArith Lia Bool List String Ascii.
Import ListNotations.
Local Open Scope Z_scope.

(* ================================================================= *)
(** * JavaScript values and the Date object                           *)
(* ================================================================= *)

Module JS.

(** ** Numbers

    The numbers the modelled code computes with are array lengths,
    rotation indices (an INTEGER column) and the result of [%], so a
    [number] is an integer or [NaN].  A stored index (an INTEGER
    column) is a [Z]. *)
Inductive number : Type :=
| Int (z : Z)
| NaN.

(** [a + b] *)
Definition add (a b : number) : number :=
  match a, b with
  | Int x, Int y => Int (x + y)
  | _, _ => NaN
  end.

(** [a % b]: the remainder takes the sign of the dividend; a zero
    divisor yields [NaN]. *)
Definition rem (a b : number) : number :=
  match a, b with
  | Int x, Int y => if y =? 0 then NaN else Int (Z.rem x y)
  | _, _ => NaN
  end.

(** ** Values that may be [null] or [undefined]

    A field typed [T | null] is an [option T] ([None] is [null]).  An
    expression that can also evaluate to [undefined] (an array read
    out of range, a key missing from an object) is a [maybe T]. *)
Inductive maybe (A : Type) : Type :=
| Undefined
| Null
| Just (a : A).
Arguments Undefined {A}.
Arguments Null {A}.
Arguments Just {A} a.

Definition of_nullable {A : Type} (o : option A) : maybe A :=
  match o with
  | Some a => Just a
  | None => Null
  end.

(** ** Arrays *)

(** [arr.length] *)
Definition length {A : Type} (arr : list A) : number :=
  Int (Z.of_nat (List.length arr)).

(** [arr[n]]: [undefined] unless [n] is an index of the array. *)
Definition index {A : Type} (arr : list A) (n : number) : maybe A :=
  match n with
  | Int z =>
      if z <? 0 then Undefined
      else match nth_error arr (Z.to_nat z) with
           | Some a => Just a
           | None => Undefined
           end
  | NaN => Undefined
  end.

(** ** Strings *)

(** White space and line terminators removed by [String.prototype.trim],
    restricted to the 8-bit characters of [string]: TAB, LF, VT, FF,
    CR, SPACE and NBSP. *)
Definition isWhiteSpace (c : ascii) : bool :=
  let n := nat_of_ascii c in
  ((9 <=? n) && (n <=? 13) || (n =? 32) || (n =? 160))%nat.

Fixpoint trimStart (s : string) : string :=
  match s with
  | EmptyString => EmptyString
  | String c s' => if isWhiteSpace c then trimStart s' else s
  end.

(** [trimEnd] drops the white space that is followed by white space
    only. *)
Fixpoint trimEnd (s : string) : string :=
  match s with
  | EmptyString => EmptyString
  | String c s' =>
      match trimEnd s' with
      | EmptyString => if isWhiteSpace c then EmptyString else String c EmptyString
      | t => String c t
      end
  end.

Definition trim (s : string) : string := trimEnd (trimStart s).

(** A string of white space only (the empty string is one). *)
Fixpoint all_white_space (s : string) : bool :=
  match s with
  | EmptyString => true
  | String c s' => isWhiteSpace c && all_white_space s'
  end.

(** Truthiness of a string: every string but the empty one. *)
Definition truthy (s : string) : bool :=
  match s with
  | EmptyString => false
  | String _ _ => true
  end.

(** ** Time values (ECMA-262, "Time Values and Time Range")

    A [Date] is its time value: milliseconds since 1970-01-01T00:00Z.
    Only valid dates are modelled: the time value is a number in the
    range of [TimeClip], never [NaN]. *)
Definition msPerSecond : Z := 1000.
Definition msPerMinute : Z := 60000.
Definition msPerHour : Z := 3600000.
Definition msPerDay : Z := 86400000.

Definition Day (t : Z) : Z := t / msPerDay.
Definition TimeWithinDay (t : Z) : Z := t mod msPerDay.

Definition DayFromYear (y : Z) : Z :=
  365 * (y - 1970) + (y - 1969) / 4 - (y - 1901) / 100 + (y - 1601) / 400.

Definition InLeapYear (y : Z) : bool :=
  (y mod 4 =? 0) && (negb (y mod 100 =? 0) || (y mod 400 =? 0)).

Definition DaysInYear (y : Z) : Z := if InLeapYear y then 366 else 365.

(** The year of day number [d]: the largest [y] with
    [DayFromYear y <= d].  The mean year has 146097/400 days, which
    locates [y] up to one year; the comparisons settle it. *)
Definition YearFromDay (d : Z) : Z :=
  let y := 1970 + (d * 400) / 146097 in
  if d <? DayFromYear y then y - 1
  else if DayFromYear (y + 1) <=? d then y + 1
  else y.

Definition YearFromTime (t : Z) : Z := YearFromDay (Day t).

Definition DayWithinYear (t : Z) : Z := Day t - DayFromYear (YearFromTime t).

Definition leapDays (y : Z) : Z := if InLeapYear y then 1 else 0.

(** Days of the year before month [m] (0 is January); [l] is 1 in a
    leap year.  The table of [MonthFromTime] and [DateFromTime]. *)
Definition DaysBeforeMonth (l m : Z) : Z :=
  match m with
  | 0 => 0
  | 1 => 31
  | 2 => 59 + l
  | 3 => 90 + l
  | 4 => 120 + l
  | 5 => 151 + l
  | 6 => 181 + l
  | 7 => 212 + l
  | 8 => 243 + l
  | 9 => 273 + l
  | 10 => 304 + l
  | 11 => 334 + l
  | _ => 365 + l
  end.

Definition MonthFromTime (t : Z) : Z :=
  let d := DayWithinYear t in
  let l := leapDays (YearFromTime t) in
  if d <? 31 then 0
  else if d <? 59 + l then 1
  else if d <? 90 + l then 2
  else if d <? 120 + l then 3
  else if d <? 151 + l then 4
  else if d <? 181 + l then 5
  else if d <? 212 + l then 6
  else if d <? 243 + l then 7
  else if d <? 273 + l then 8
  else if d <? 304 + l then 9
  else if d <? 334 + l then 10
  else 11.

Definition DateFromTime (t : Z) : Z :=
  DayWithinYear t
  - DaysBeforeMonth (leapDays (YearFromTime t)) (MonthFromTime t) + 1.

(** 0 is Sunday; 1970-01-01 was a Thursday. *)
Definition WeekDay (t : Z) : Z := (Day t + 4) mod 7.

Definition HourFromTime (t : Z) : Z := (t / msPerHour) mod 24.
Definition MinFromTime (t : Z) : Z := (t / msPerMinute) mod 60.
Definition SecFromTime (t : Z) : Z := (t / msPerSecond) mod 60.
Definition msFromTime (t : Z) : Z := t mod msPerSecond.

Definition MakeTime (hour min sec ms : Z) : Z :=
  hour * msPerHour + min * msPerMinute + sec * msPerSecond + ms.

(** [MakeDay year month date]: months beyond 0..11 carry into the
    year, dates beyond the month carry into the following days. *)
Definition MakeDay (year month date : Z) : Z :=
  let ym := year + month / 12 in
  let mn := month mod 12 in
  DayFromYear ym + DaysBeforeMonth (leapDays ym) mn + date - 1.

Definition MakeDate (day time : Z) : Z := day * msPerDay + time.

Definition DaysInMonth (y m : Z) : Z :=
  DaysBeforeMonth (leapDays y) (m + 1) - DaysBeforeMonth (leapDays y) m.


(** ** Local time and the methods of [Date.prototype]

    The local time zone is a constant offset from UTC of [tz]
    minutes (no daylight-saving transitions). *)
Section LocalTime.

Variable tz : Z.

Definition LocalTZA : Z := tz * msPerMinute.
Definition LocalTime (t : Z) : Z := t + LocalTZA.
Definition UTC (t : Z) : Z := t - LocalTZA.

Definition getFullYear (d : Z) : Z := YearFromTime (LocalTime d).
Definition getMonth (d : Z) : Z := MonthFromTime (LocalTime d).
Definition getDate (d : Z) : Z := DateFromTime (LocalTime d).
Definition getDay (d : Z) : Z := WeekDay (LocalTime d).
Definition getHours (d : Z) : Z := HourFromTime (LocalTime d).
Definition getMinutes (d : Z) : Z := MinFromTime (LocalTime d).
Definition getSeconds (d : Z) : Z := SecFromTime (LocalTime d).

(** [d.setDate(date)] *)
Definition setDate (d : Z) (date : Z) : Z :=
  let t := LocalTime d in
  UTC (MakeDate (MakeDay (YearFromTime t) (MonthFromTime t) date)
                (TimeWithinDay t)).

(** [d.setMonth(month)]: the day of the month is kept as it is, so
    a day the target month does not have carries into the next. *)
Definition setMonth (d : Z) (month : Z) : Z :=
  let t := LocalTime d in
  UTC (MakeDate (MakeDay (YearFromTime t) month (DateFromTime t))
                (TimeWithinDay t)).

(** [d.setHours(hour, min, sec, ms)] *)
Definition setHours (d : Z) (hour min sec ms : Z) : Z :=
  let t := LocalTime d in
  UTC (MakeDate (Day t) (MakeTime hour min sec ms)).

End LocalTime.

(** ** Date-time text

    The timestamps of the application are ISO-8601 strings of two
    shapes, kept here by what they denote:
    - [ISOString t], a date-time with the [Z] designator or an offset,
      as [Date.prototype.toISOString] writes it and as the store
      returns a [timestamptz]: the instant [t];
    - [LocalString f], the text [yyyy-MM-ddTHH:mm:ss] without offset
      that date-fns [format] writes: wall-clock fields, which
      [new Date] reads in the local time zone. *)
Record LocalText : Type := {
  yyyy : Z;
  MM : Z;
  dd : Z;
  HH : Z;
  mm : Z;
  ss : Z
}.

Inductive DateString : Type :=
| ISOString (t : Z)
| LocalString (f : LocalText).

Definition toISOString (d : Z) : DateString := ISOString d.

(** [new Date(s)]; the fields of a [LocalString] are in range, as
    [format] writes them. *)
Definition newDate (tz : Z) (s : DateString) : Z :=
  match s with
  | ISOString t => t
  | LocalString f =>
      UTC tz (MakeDate (MakeDay (yyyy f) (MM f - 1) (dd f))
                       (MakeTime (HH f) (mm f) (ss f) 0))
  end.

(** The characters of the text, for years 0 to 9999. *)
Definition digit (n : Z) : ascii := ascii_of_nat (48 + Z.to_nat (n mod 10)).

Definition pad2 (n : Z) : string :=
  String (digit (n / 10)) (String (digit n) EmptyString).

Definition pad3 (n : Z) : string := String (digit (n / 100)) (pad2 n).

Definition pad4 (n : Z) : string := String (digit (n / 1000)) (pad3 n).

Definition text (s : DateString) : string :=
  String.concat EmptyString
    match s with
    | ISOString t =>
        [pad4 (YearFromTime t); "-"; pad2 (MonthFromTime t + 1); "-";
         pad2 (DateFromTime t); "T"; pad2 (HourFromTime t); ":";
         pad2 (MinFromTime t); ":"; pad2 (SecFromTime t); ".";
         pad3 (msFromTime t); "Z"]%string
    | LocalString f =>
        [pad4 (yyyy f); "-"; pad2 (MM f); "-"; pad2 (dd f); "T";
         pad2 (HH f); ":"; pad2 (mm f); ":"; pad2 (ss f)]%string
    end.

(** ** [Array.prototype.sort]

    The sort is stable.  With a consistent comparator its result is
    the one of the stable insertion below: an element goes before
    the first element it does not compare greater than.  (With an
    inconsistent comparator the order is left to the engine.) *)
Fixpoint insert {A : Type} (compareFn : A -> A -> Z) (x : A) (arr : list A)
    : list A :=
  match arr with
  | [] => [x]
  | y :: arr' =>
      if compareFn x y <=? 0 then x :: arr else y :: insert compareFn x arr'
  end.

Fixpoint sort {A : Type} (compareFn : A -> A -> Z) (arr : list A) : list A :=
  match arr with
  | [] => []
  | x :: arr' => insert compareFn x (sort compareFn arr')
  end.

(** A number of one or two digits, as a template literal writes it. *)
Definition decimal (n : Z) : string :=
  if n <? 10 then String (digit n) EmptyString else pad2 n.


End JS.

(* ================================================================= *)
(** * date-fns                                                        *)
(* ================================================================= *)

Module DateFns.
Import JS.

Section LocalTime.

Variable tz : Z.

(** [addDays(date, amount)]: a zero amount returns the date,
    otherwise [date.setDate(date.getDate() + amount)]. *)
Definition addDays (date amount : Z) : Z :=
  if amount =? 0 then date
  else setDate tz date (getDate tz date + amount).

(** [startOfDay(date)]: [date.setHours(0, 0, 0, 0)]. *)
Definition startOfDay (date : Z) : Z := setHours tz date 0 0 0 0.

Definition isSameDay (dateLeft dateRight : Z) : bool :=
  startOfDay dateLeft =? startOfDay dateRight.

(** [isToday(date)] is [isSameDay(date, Date.now())] and
    [isPast(date)] is [date < Date.now()]; [now] is the reading of
    the clock. *)
Definition isToday (now date : Z) : bool := isSameDay date now.

Definition isPast (now date : Z) : bool := date <? now.

(** [startOfWeek(date, options)]: without a [weekStartsOn] option
    (and with the default locale) the week starts on day 0, Sunday. *)
Definition startOfWeek (date : Z) (weekStartsOn : option Z) : Z :=
  let weekStartsOn := match weekStartsOn with Some w => w | None => 0 end in
  let day := getDay tz date in
  let diff := (if day <? weekStartsOn then 7 else 0) + day - weekStartsOn in
  setHours tz (setDate tz date (getDate tz date - diff)) 0 0 0 0.

Definition isSameWeek (dateLeft dateRight : Z) (weekStartsOn : option Z) : bool :=
  startOfWeek dateLeft weekStartsOn =? startOfWeek dateRight weekStartsOn.

(** [isThisWeek(date, options)] is
    [isSameWeek(date, Date.now(), options)]. *)
Definition isThisWeek (now date : Z) (weekStartsOn : option Z) : bool :=
  isSameWeek date now weekStartsOn.

(** [format(date, "yyyy-MM-dd'T'HH:mm:ss")]: the local wall-clock
    fields, to the second; the milliseconds are not written. *)
Definition format (date : Z) : LocalText :=
  {| yyyy := getFullYear tz date;
     MM := getMonth tz date + 1;
     dd := getDate tz date;
     HH := getHours tz date;
     mm := getMinutes tz date;
     ss := getSeconds tz date |}.

(** [endOfDay(date)]: [date.setHours(23, 59, 59, 999)]. *)
Definition endOfDay (date : Z) : Z := setHours tz date 23 59 59 999.

(** [isBefore(date, dateToCompare)] *)
Definition isBefore (date dateToCompare : Z) : bool := date <? dateToCompare.

(** [isTomorrow(date)] is [isSameDay(date, addDays(Date.now(), 1))]. *)
Definition isTomorrow (now date : Z) : bool := isSameDay date (addDays now 1).

(** The month and week day names of the default locale. *)
Definition MMM (month : Z) : string :=
  match month with
  | 0 => "Jan" | 1 => "Feb" | 2 => "Mar" | 3 => "Apr"
  | 4 => "May" | 5 => "Jun" | 6 => "Jul" | 7 => "Aug"
  | 8 => "Sep" | 9 => "Oct" | 10 => "Nov" | _ => "Dec"
  end.


(** [format(date, 'MMM d')] *)
Definition format_MMM_d (date : Z) : string :=
  (MMM (getMonth tz date) ++ " " ++ decimal (getDate tz date))%string.





End LocalTime.

End DateFns.

(* ================================================================= *)
(** * What a provider reads from its surroundings                     *)
(* ================================================================= *)

(** The signed-in user and the selected family ([useAuth]), the
    clock ([Date.now()]), and the key the store generates for an
    inserted row. *)
Module Runtime.
Record Env : Type := {
  user : option string;
  currentFamily : option string;
  clock : Z;
  uuid_generate_v4 : string
}.
End Runtime.

(* ================================================================= *)
(** * ChoresContext                                                   *)
(* ================================================================= *)

Module ChoresContext.
Import JS Runtime.

Inductive Frequency : Type := daily | weekly | monthly.

(** A row of the [chores] table.  The two display names the context
    attaches to a row in memory ([assignee_name], [creator_name]) are
    not columns: they are stripped from every update ("Remove computed
    fields") and are left out here. *)
Record Chore : Type := {
  id : string;
  family_id : string;
  title : string;
  description : option string;
  frequency : Frequency;
  assigned_to : option string;
  rotation : bool;
  rotation_members : option (list string);
  current_assignee_index : option Z;
  created_at : DateString;
  created_by : string;
  next_due : option DateString;
  last_completed : option DateString
}.

(** The argument of [createChore]: a [Chore] without [id],
    [family_id], [created_at], [created_by], [next_due] and
    [last_completed]. *)
Module ChoreData.
Record t : Type := {
  title : string;
  description : option string;
  frequency : Frequency;
  rotation : bool;
  assigned_to : option string;
  rotation_members : option (list string);
  current_assignee_index : option Z
}.
End ChoreData.

(** [Partial<Chore>], the argument of [updateChore]: a key is present
    with a value, present with [null], or absent.  The keys no caller
    sets ([id], [family_id], [created_at], [created_by]) are left
    out. *)
Module Partial.
Record t : Type := {
  title : option string;
  description : maybe string;
  frequency : option Frequency;
  rotation : option bool;
  assigned_to : maybe string;
  rotation_members : maybe (list string);
  current_assignee_index : maybe number;
  next_due : maybe DateString;
  last_completed : maybe DateString
}.

Definition ofChoreData (d : ChoreData.t) : t :=
  {| title := Some (ChoreData.title d);
     description := of_nullable (ChoreData.description d);
     frequency := Some (ChoreData.frequency d);
     rotation := Some (ChoreData.rotation d);
     assigned_to := of_nullable (ChoreData.assigned_to d);
     rotation_members := of_nullable (ChoreData.rotation_members d);
     current_assignee_index :=
       of_nullable (option_map Int (ChoreData.current_assignee_index d));
     next_due := Undefined;
     last_completed := Undefined |}.
End Partial.

(** ** The store

    [supabase.from('chores')]: the update is sent as JSON, which
    drops the keys whose value is [undefined] and writes [NaN] as
    [null]; the row keeps every column the body does not name.  A
    timestamp column holds the text that was written to it (how the
    store itself reads a text without offset is not modelled). *)
Definition column {A : Type} (old : A) (v : option A) : A :=
  match v with
  | Some a => a
  | None => old
  end.

Definition nullable_column {A : Type} (old : option A) (v : maybe A) : option A :=
  match v with
  | Undefined => old
  | Null => None
  | Just a => Some a
  end.

Definition json_number (v : maybe number) : maybe Z :=
  match v with
  | Undefined => Undefined
  | Null => Null
  | Just (Int z) => Just z
  | Just NaN => Null
  end.

Definition update_row (updateData : Partial.t) (row : Chore) : Chore :=
  {| id := id row;
     family_id := family_id row;
     title := column (title row) (Partial.title updateData);
     description := nullable_column (description row) (Partial.description updateData);
     frequency := column (frequency row) (Partial.frequency updateData);
     assigned_to := nullable_column (assigned_to row) (Partial.assigned_to updateData);
     rotation := column (rotation row) (Partial.rotation updateData);
     rotation_members :=
       nullable_column (rotation_members row) (Partial.rotation_members updateData);
     current_assignee_index :=
       nullable_column (current_assignee_index row)
         (json_number (Partial.current_assignee_index updateData));
     created_at := created_at row;
     created_by := created_by row;
     next_due := nullable_column (next_due row) (Partial.next_due updateData);
     last_completed :=
       nullable_column (last_completed row) (Partial.last_completed updateData) |}.

(** [chores.find(c => c.id === id)] *)
Definition find_chore (id' : string) (chores : list Chore) : option Chore :=
  find (fun c => String.eqb (id c) id') chores.

(** [prevChores.map(chore => chore.id === id ? updatedChore : chore)] *)
Definition replace_chore (id' : string) (updatedChore : Chore)
    (chores : list Chore) : list Chore :=
  map (fun chore => if String.eqb (id chore) id' then updatedChore else chore) chores.

Section LocalTime.

Variable tz : Z.

(** [calculateNextDueDate(frequency, lastCompleted = null)]; [now]
    is what [new Date()] reads.  The [default] arm of the switch
    cannot be taken: [frequency] is one of the three. *)
Definition calculateNextDueDate (now : Z) (frequency : Frequency)
    (lastCompleted : option DateString) : DateString :=
  let startDate :=
    match lastCompleted with
    | Some s => newDate tz s
    | None => now
    end in
  let nextDue :=
    match frequency with
    | daily => DateFns.addDays tz startDate 1
    | weekly => DateFns.addDays tz startDate 7
    | monthly => setMonth tz startDate (getMonth tz startDate + 1)
    end in
  LocalString (DateFns.format tz nextDue).

(** [getNextAssignee(chore)] *)
Definition getNextAssignee (chore : Chore) : maybe string :=
  match rotation_members chore with
  | Some members =>
      if negb (rotation chore) || (List.length members =? 0)%nat
      then of_nullable (assigned_to chore)
      else
        let nextIndex :=
          match current_assignee_index chore with
          | Some i => rem (add (Int i) (Int 1)) (length members)
          | None => Int 0
          end in
        index members nextIndex
  | None => of_nullable (assigned_to chore)
  end.

(** The [updates] object of [completeChore]. *)
Definition completeChore_updates (now : Z) (chore : Chore) : Partial.t :=
  let now' := toISOString now in
  let nextDue := calculateNextDueDate now (frequency chore) (Some now') in
  let nextAssignee := getNextAssignee chore in
  let nextAssigneeIndex :=
    match rotation chore, rotation_members chore with
    | true, Some members =>
        match current_assignee_index chore with
        | Some i => Just (rem (add (Int i) (Int 1)) (length members))
        | None => Just (Int 0)
        end
    | _, _ => of_nullable (option_map Int (current_assignee_index chore))
    end in
  {| Partial.title := None;
     Partial.description := Undefined;
     Partial.frequency := None;
     Partial.rotation := None;
     Partial.assigned_to := nextAssignee;
     Partial.rotation_members := Undefined;
     Partial.current_assignee_index := nextAssigneeIndex;
     Partial.next_due := Just nextDue;
     Partial.last_completed := Just now' |}.

(** The operations return [None] where the code throws for want of
    a user, a family or the row; otherwise the row the store
    returns and the new [chores] state.  The store is taken to
    answer (a request it fails throws as well, before any change of
    state), and the state of the provider mirrors the table: a row
    is found by its primary key. *)

(** [createChore(chore)] *)
Definition createChore (env : Env) (chore : ChoreData.t)
    (chores : list Chore) : option (Chore * list Chore) :=
  match user env, currentFamily env with
  | Some u, Some f =>
      let nextDue := calculateNextDueDate (clock env) (ChoreData.frequency chore) None in
      let data :=
        {| id := uuid_generate_v4 env;
           family_id := f;
           title := ChoreData.title chore;
           description := ChoreData.description chore;
           frequency := ChoreData.frequency chore;
           assigned_to := ChoreData.assigned_to chore;
           rotation := ChoreData.rotation chore;
           rotation_members := ChoreData.rotation_members chore;
           current_assignee_index := ChoreData.current_assignee_index chore;
           created_at := ISOString (clock env);
           created_by := u;
           next_due := Some nextDue;
           last_completed := None |} in
      Some (data, chores ++ [data])
  | _, _ => None
  end.

(** [updateChore(id, updates)] *)
Definition updateChore (env : Env) (id' : string) (updates : Partial.t)
    (chores : list Chore) : option (Chore * list Chore) :=
  match currentFamily env with
  | None => None
  | Some f =>
      match find_chore id' chores with
      | Some row =>
          if String.eqb (family_id row) f then
            let data := update_row updates row in
            Some (data, replace_chore id' data chores)
          else None
      | None => None
      end
  end.

(** [completeChore(id)] *)
Definition completeChore (env : Env) (id' : string)
    (chores : list Chore) : option (Chore * list Chore) :=
  match find_chore id' chores with
  | None => None
  | Some chore =>
      updateChore env id' (completeChore_updates (clock env) chore) chores
  end.

(** [deleteChore(id)]: the new [chores] state, or [None] where the
    code throws (no family selected).  The request deletes the row
    of that id in the selected family; the state drops every chore
    of that id. *)
Definition deleteChore (env : Env) (id' : string)
    (chores : list Chore) : option (list Chore) :=
  match currentFamily env with
  | None => None
  | Some _ => Some (filter (fun chore => negb (String.eqb (id chore) id')) chores)
  end.

(** [getDueChores()]; [now] is what [new Date()] reads. *)
Definition getDueChores (now : Z) (chores : list Chore) : list Chore :=
  filter (fun chore =>
            match next_due chore with
            | None => false
            | Some nd => newDate tz nd <=? now
            end)
         chores.


End LocalTime.

End ChoresContext.

(* ================================================================= *)
(** * ChoresForm                                                      *)
(* ================================================================= *)

Module ChoresForm.
Import JS Runtime.

(** The [errors] object: the keys the component writes are [title],
    [rotation] and [submit]; [None] is a missing key. *)
Module Errors.
Record t : Type := {
  title : option string;
  rotation : option string;
  submit : option string
}.

Definition empty : t := {| title := None; rotation := None; submit := None |}.

Definition count (o : option string) : nat :=
  match o with
  | Some _ => 1
  | None => 0
  end.

(** [Object.keys(errors).length] *)
Definition keys_length (e : t) : nat :=
  (count (title e) + count (rotation e) + count (submit e))%nat.
End Errors.

(** The props the submission reads: [initialData?.id], [isEditing]. *)
Record Props : Type := {
  initialData_id : option string;
  isEditing : bool
}.

(** The state of the component. *)
Record State : Type := {
  title : string;
  description : string;
  frequency : ChoresContext.Frequency;
  rotation : bool;
  assignedTo : option string;
  rotationMembers : list string;
  isSubmitting : bool;
  errors : Errors.t
}.

Definition setErrors (s : State) (e : Errors.t) : State :=
  {| title := title s;
     description := description s;
     frequency := frequency s;
     rotation := rotation s;
     assignedTo := assignedTo s;
     rotationMembers := rotationMembers s;
     isSubmitting := isSubmitting s;
     errors := e |}.

Definition setIsSubmitting (s : State) (b : bool) : State :=
  {| title := title s;
     description := description s;
     frequency := frequency s;
     rotation := rotation s;
     assignedTo := assignedTo s;
     rotationMembers := rotationMembers s;
     isSubmitting := b;
     errors := errors s |}.

(** [validateForm()]: the errors it hands to [setErrors] and its
    result. *)
Definition validateForm (s : State) : Errors.t * bool :=
  let title_error :=
    if negb (truthy (trim (title s))) then Some "Title is required"%string
    else None in
  let rotation_error :=
    if rotation s && (List.length (rotationMembers s) <? 2)%nat
    then Some "Rotation requires at least 2 family members"%string
    else None in
  let newErrors :=
    {| Errors.title := title_error;
       Errors.rotation := rotation_error;
       Errors.submit := None |} in
  (newErrors, (Errors.keys_length newErrors =? 0)%nat).

(** [toggleRotationMember(userId)] *)
Definition toggleRotationMember (s : State) (userId : string) : State :=
  let prev := rotationMembers s in
  {| title := title s;
     description := description s;
     frequency := frequency s;
     rotation := rotation s;
     assignedTo := assignedTo s;
     rotationMembers :=
       if existsb (String.eqb userId) prev
       then filter (fun id => negb (String.eqb id userId)) prev
       else prev ++ [userId];
     isSubmitting := isSubmitting s;
     errors := errors s |}.

(** The [choreData] object of [handleSubmit]. *)
Definition choreData (s : State) : ChoresContext.ChoreData.t :=
  {| ChoresContext.ChoreData.title := title s;
     ChoresContext.ChoreData.description :=
       if truthy (description s) then Some (description s) else None;
     ChoresContext.ChoreData.frequency := frequency s;
     ChoresContext.ChoreData.rotation := rotation s;
     ChoresContext.ChoreData.assigned_to :=
       if rotation s then None else assignedTo s;
     ChoresContext.ChoreData.rotation_members :=
       if rotation s then Some (rotationMembers s) else None;
     ChoresContext.ChoreData.current_assignee_index :=
       if rotation s then Some 0 else None |}.

(** The calls a submission makes on the chores context. *)
Inductive Call : Type :=
| call_createChore (chore : ChoresContext.ChoreData.t)
| call_updateChore (id : string) (updates : ChoresContext.Partial.t).

(** What a submission leaves behind: the state of the form, the
    chores of the context, the calls made on the context, and whether
    [onClose] was called. *)
Record Outcome : Type := {
  state : State;
  chores : list ChoresContext.Chore;
  invoked : list Call;
  closed : bool
}.

Definition failed (s : State) : State :=
  setIsSubmitting
    (setErrors s {| Errors.title := None;
                    Errors.rotation := None;
                    Errors.submit := Some "Failed to save chore"%string |})
    false.

(** [handleSubmit(e)] *)
Definition handleSubmit (tz : Z) (env : Env) (props : Props) (s : State)
    (chores0 : list ChoresContext.Chore) : Outcome :=
  let (newErrors, valid) := validateForm s in
  let s := setErrors s newErrors in
  if negb valid then
    {| state := s; chores := chores0; invoked := []; closed := false |}
  else
    let choreData := choreData s in
    let editing :=
      match initialData_id props with
      | Some id => if isEditing props && truthy id then Some id else None
      | None => None
      end in
    match editing with
    | Some id =>
        let updates := ChoresContext.Partial.ofChoreData choreData in
        match ChoresContext.updateChore env id updates chores0 with
        | Some (_, chores1) =>
            {| state := setIsSubmitting s false; chores := chores1;
               invoked := [call_updateChore id updates]; closed := true |}
        | None =>
            {| state := failed s; chores := chores0;
               invoked := [call_updateChore id updates]; closed := false |}
        end
    | None =>
        match ChoresContext.createChore tz env choreData chores0 with
        | Some (_, chores1) =>
            {| state := setIsSubmitting s false; chores := chores1;
               invoked := [call_createChore choreData]; closed := true |}
        | None =>
            {| state := failed s; chores := chores0;
               invoked := [call_createChore choreData]; closed := false |}
        end
    end.

(** The error paragraphs of the rendered form: the one under the
    title input, and the one under the member check boxes, which is
    part of the rotation section only. *)
Definition shown (message : option string) : option string :=
  match message with
  | Some m => if truthy m then Some m else None
  | None => None
  end.

Definition title_error_paragraph (s : State) : option string :=
  shown (Errors.title (errors s)).

Definition rotation_error_paragraph (s : State) : option string :=
  if rotation s then shown (Errors.rotation (errors s)) else None.

End ChoresForm.

(* ================================================================= *)
(** * ChoresList                                                      *)
(* ================================================================= *)

Module ChoresList.
Import JS ChoresContext.

(** The keys of the [groups] object of [groupChoresByStatus], in the
    order the object lists them. *)
Inductive GroupKey : Type := overdue | dueToday | upcoming | completed.

Definition GroupKey_eqb (a b : GroupKey) : bool :=
  match a, b with
  | overdue, overdue | dueToday, dueToday
  | upcoming, upcoming | completed, completed => true
  | _, _ => false
  end.

Record GroupedChores : Type := {
  label : string;
  chores : list Chore
}.

Definition group_label (k : GroupKey) : string :=
  match k with
  | overdue => "Overdue"
  | dueToday => "Due Today"
  | upcoming => "Upcoming"
  | completed => "Recently Completed"
  end.

Section LocalTime.

Variable tz : Z.

(** The body of the [forEach] of [groupChoresByStatus]: the group
    a chore is pushed to; [now] is the reading of the clock. *)
Definition group_of (now : Z) (chore : Chore) : GroupKey :=
  if match last_completed chore with
     | Some lc => DateFns.isThisWeek tz now (newDate tz lc) None
     | None => false
     end
  then completed
  else
    match next_due chore with
    | None => upcoming
    | Some nd =>
        let dueDate := newDate tz nd in
        if DateFns.isPast now dueDate && negb (DateFns.isToday tz now dueDate)
        then overdue
        else if DateFns.isToday tz now dueDate then dueToday
        else upcoming
    end.

(** [groupChoresByStatus()]: every chore of [sortedChores] is pushed
    to its group, in order; the groups without chores are dropped. *)
Definition groupChoresByStatus (now : Z) (sortedChores : list Chore)
    : list GroupedChores :=
  let groups :=
    map (fun k =>
           {| label := group_label k;
              chores := filter (fun chore => GroupKey_eqb (group_of now chore) k)
                               sortedChores |})
        [overdue; dueToday; upcoming; completed] in
  filter (fun group => (0 <? List.length (chores group))%nat) groups.

End LocalTime.

(** The filter tabs of the list. *)
Module Filter.
Inductive t : Type := all | mine | due | completed.
End Filter.

Section Sorting.

Variable tz : Z.

(** [String.prototype.localeCompare], by the collation of the
    browser. *)
Variable localeCompare : string -> string -> Z.

(** [filteredChores()]: [user_id] is [user?.id], [now] the reading
    of the clock. *)
Definition filteredChores (filter : Filter.t) (user_id : option string)
    (now : Z) (chores : list Chore) : list Chore :=
  match filter with
  | Filter.mine =>
      List.filter
        (fun chore =>
           match assigned_to chore, user_id with
           | Some a, Some u => String.eqb a u
           | _, _ => false
           end)
        chores
  | Filter.due => getDueChores tz now chores
  | Filter.completed =>
      List.filter
        (fun chore =>
           match last_completed chore with
           | None => false
           | Some lc => DateFns.isThisWeek tz now (newDate tz lc) None
           end)
        chores
  | Filter.all => chores
  end.

(** The comparator of [sortedChores]. *)
Definition compareChores (now : Z) (a b : Chore) : Z :=
  match next_due a, next_due b with
  | Some _, None => -1
  | None, Some _ => 1
  | Some a_due, Some b_due =>
      let aDue := newDate tz a_due in
      let bDue := newDate tz b_due in
      let aOverdue := DateFns.isPast now aDue && negb (DateFns.isToday tz now aDue) in
      let bOverdue := DateFns.isPast now bDue && negb (DateFns.isToday tz now bDue) in
      if aOverdue && negb bOverdue then -1
      else if negb aOverdue && bOverdue then 1
      else aDue - bDue
  | None, None => localeCompare (title a) (title b)
  end.

Definition sortedChores (filter : Filter.t) (user_id : option string)
    (now : Z) (chores : list Chore) : list Chore :=
  sort (compareChores now) (filteredChores filter user_id now chores).

(** [groupedChores]: the groups the list shows. *)
Definition groupedChores (filter : Filter.t) (user_id : option string)
    (now : Z) (chores : list Chore) : list GroupedChores :=
  groupChoresByStatus tz now (sortedChores filter user_id now chores).

(** [formatDueDate(dateString)] *)
Definition formatDueDate (now : Z) (dateString : option DateString) : string :=
  match dateString with
  | None => "No due date"
  | Some s =>
      let dueDate := newDate tz s in
      if DateFns.isToday tz now dueDate then "Today"
      else if DateFns.isPast now dueDate && negb (DateFns.isToday tz now dueDate)
      then ("Overdue: " ++ DateFns.format_MMM_d tz dueDate)%string
      else DateFns.format_MMM_d tz dueDate
  end.

(** [formatFrequency(frequency)] *)
Definition formatFrequency (frequency : Frequency) : string :=
  match frequency with
  | daily => "Every day"
  | weekly => "Every week"
  | monthly => "Every month"
  end.

End Sorting.

End ChoresList.

(* ================================================================= *)
(** * TodosContext                                                    *)
(* ================================================================= *)

Module TodosContext.
Import JS Runtime.

Inductive Priority : Type := low | medium | high.
Inductive Status : Type := pending | in_progress | completed.

(** A row of the [todos] table (without the display names kept in
    memory only, as for chores). *)
Record Todo : Type := {
  id : string;
  family_id : string;
  title : string;
  description : option string;
  due_date : option DateString;
  priority : Priority;
  status : Status;
  assigned_to : option string;
  created_at : DateString;
  created_by : string
}.

(** [Partial<Todo>] *)
Module Partial.
Record t : Type := {
  title : option string;
  description : maybe string;
  due_date : maybe DateString;
  priority : option Priority;
  status : option Status;
  assigned_to : maybe string
}.
End Partial.

Definition update_row (updateData : Partial.t) (row : Todo) : Todo :=
  {| id := id row;
     family_id := family_id row;
     title := ChoresContext.column (title row) (Partial.title updateData);
     description :=
       ChoresContext.nullable_column (description row) (Partial.description updateData);
     due_date :=
       ChoresContext.nullable_column (due_date row) (Partial.due_date updateData);
     priority := ChoresContext.column (priority row) (Partial.priority updateData);
     status := ChoresContext.column (status row) (Partial.status updateData);
     assigned_to :=
       ChoresContext.nullable_column (assigned_to row) (Partial.assigned_to updateData);
     created_at := created_at row;
     created_by := created_by row |}.

(** [todos.find(t => t.id === id)] *)
Definition find_todo (id' : string) (todos : list Todo) : option Todo :=
  find (fun t => String.eqb (id t) id') todos.

(** [prevTodos.map(todo => todo.id === id ? updatedTodo : todo)] *)
Definition replace_todo (id' : string) (updatedTodo : Todo)
    (todos : list Todo) : list Todo :=
  map (fun todo => if String.eqb (id todo) id' then updatedTodo else todo) todos.

(** [updateTodo(id, updates)]; [None] where the code throws. *)
Definition updateTodo (env : Env) (id' : string) (updates : Partial.t)
    (todos : list Todo) : option (Todo * list Todo) :=
  match currentFamily env with
  | None => None
  | Some f =>
      match find_todo id' todos with
      | Some row =>
          if String.eqb (family_id row) f then
            let data := update_row updates row in
            Some (data, replace_todo id' data todos)
          else None
      | None => None
      end
  end.

Definition Status_eqb (a b : Status) : bool :=
  match a, b with
  | pending, pending | in_progress, in_progress | completed, completed => true
  | _, _ => false
  end.

(** [toggleTodoStatus(id)] *)
Definition toggleTodoStatus (env : Env) (id' : string)
    (todos : list Todo) : option (Todo * list Todo) :=
  match find_todo id' todos with
  | None => None
  | Some todo =>
      let newStatus :=
        if Status_eqb (status todo) completed then pending else completed in
      updateTodo env id'
        {| Partial.title := None;
           Partial.description := Undefined;
           Partial.due_date := Undefined;
           Partial.priority := None;
           Partial.status := Some newStatus;
           Partial.assigned_to := Undefined |}
        todos
  end.

(** The argument of [createTodo]: a [Todo] without [id],
    [family_id], [created_at] and [created_by]. *)
Module TodoData.
Record t : Type := {
  title : string;
  description : option string;
  due_date : option DateString;
  priority : Priority;
  status : Status;
  assigned_to : option string
}.
End TodoData.

Definition ofTodoData (d : TodoData.t) : Partial.t :=
  {| Partial.title := Some (TodoData.title d);
     Partial.description := of_nullable (TodoData.description d);
     Partial.due_date := of_nullable (TodoData.due_date d);
     Partial.priority := Some (TodoData.priority d);
     Partial.status := Some (TodoData.status d);
     Partial.assigned_to := of_nullable (TodoData.assigned_to d) |}.


(** [deleteTodo(id)] *)
Definition deleteTodo (env : Env) (id' : string)
    (todos : list Todo) : option (list Todo) :=
  match currentFamily env with
  | None => None
  | Some _ => Some (filter (fun todo => negb (String.eqb (id todo) id')) todos)
  end.

(** The [criteria] of [filterTodos]: a missing key is [Undefined]
    or [None]. *)
Module Criteria.
Inductive StatusFilter : Type := pending | in_progress | completed | active.
Record t : Type := {
  assignedTo : maybe string;
  status : option StatusFilter;
  priority : option Priority;
  dueSoon : option bool
}.
End Criteria.

Definition Priority_eqb (a b : Priority) : bool :=
  match a, b with
  | low, low | medium, medium | high, high => true
  | _, _ => false
  end.

Definition option_string_eqb (a b : option string) : bool :=
  match a, b with
  | Some x, Some y => String.eqb x y
  | None, None => true
  | _, _ => false
  end.

(** [todo.status !== criteria.status], for a criterion other than
    ['active']. *)
Definition status_differs (s : Status) (c : Criteria.StatusFilter) : bool :=
  match s, c with
  | pending, Criteria.pending
  | in_progress, Criteria.in_progress
  | completed, Criteria.completed => false
  | _, _ => true
  end.

(** [filterTodos(criteria)]; [now] is what [new Date()] reads.  The
    hours to the due date exceed 48 when the milliseconds exceed
    48 * 3600000. *)
Definition filterTodos (tz now : Z) (criteria : Criteria.t)
    (todos : list Todo) : list Todo :=
  filter
    (fun todo =>
       if match Criteria.assignedTo criteria with
          | Undefined => false
          | Null => negb (option_string_eqb (assigned_to todo) None)
          | Just a => negb (option_string_eqb (assigned_to todo) (Some a))
          end
       then false
       else if match Criteria.status criteria with
               | Some Criteria.active => Status_eqb (status todo) completed
               | Some c => status_differs (status todo) c
               | None => false
               end
       then false
       else if match Criteria.priority criteria with
               | Some p => negb (Priority_eqb (priority todo) p)
               | None => false
               end
       then false
       else if match Criteria.dueSoon criteria, due_date todo with
               | Some true, Some d => 48 * msPerHour <? newDate tz d - now
               | _, _ => false
               end
       then false
       else true)
    todos.

End TodosContext.

(* ================================================================= *)
(** * The specification's reading of the due states                   *)
(* ================================================================= *)

(** The classifier as section 4.4 of the specification words it, to
    compare with [ChoresList.group_of]: five due states, the calendar
    week running from Monday to Sunday. *)
Module Spec.
Import JS.

Inductive DueState : Type :=
| Overdue
| DueToday
| Upcoming
| NoDueDate
| RecentlyCompleted.

(** The due state a group of the chore list stands for. *)
Definition state_of_group (k : ChoresList.GroupKey) : DueState :=
  match k with
  | ChoresList.overdue => Overdue
  | ChoresList.dueToday => DueToday
  | ChoresList.upcoming => Upcoming
  | ChoresList.completed => RecentlyCompleted
  end.

Section LocalTime.

Variable tz : Z.

(** Two instants on the same calendar day. *)
Definition same_calendar_day (a b : Z) : bool :=
  Day (LocalTime tz a) =? Day (LocalTime tz b).

(** The number of the Monday-to-Sunday week of an instant: day 0
    was a Thursday, so day -3 was a Monday. *)
Definition monday_week (t : Z) : Z := (Day (LocalTime tz t) + 3) / 7.

(** The number of the Sunday-to-Saturday week of an instant. *)
Definition sunday_week (t : Z) : Z := (Day (LocalTime tz t) + 4) / 7.

Definition classify (dueTimestamp lastCompleted : option Z) (now : Z) : DueState :=
  if match lastCompleted with
     | Some lc => monday_week lc =? monday_week now
     | None => false
     end
  then RecentlyCompleted
  else
    match dueTimestamp with
    | None => NoDueDate
    | Some due =>
        if (due <? now) && negb (same_calendar_day due now) then Overdue
        else if same_calendar_day due now then DueToday
        else Upcoming
    end.

End LocalTime.

End Spec.

(* ================================================================= *)
(** * The chore states the application produces                       *)
(* ================================================================= *)

Module Lifecycle.
Import JS Runtime ChoresContext.


Section LocalTime.

Variable tz : Z.


End LocalTime.


End Lifecycle.

(* ================================================================= *)
(** * Concrete chores, to-dos and instants                            *)
(* ================================================================= *)

Module Examples.
Import JS Runtime.

(** 2024-01-31T09:00:00Z, a Wednesday. *)
Definition jan_31 : Z := 1706691600000.
(** 2024-06-10T09:00:00Z, a Monday. *)
Definition june_10 : Z := 1718010000000.
(** 2024-06-15T12:00:00Z, a Saturday. *)
Definition june_15_noon : Z := 1718452800000.
(** 2024-06-16T13:00:00Z, the Sunday after. *)
Definition june_16 : Z := 1718542800000.

Definition env (now : Z) : Env :=
  {| user := Some "alice"%string;
     currentFamily := Some "family"%string;
     clock := now;
     uuid_generate_v4 := "chore-2"%string |}.

(** A chore of the family, by its frequency and rotation fields. *)
Definition chore (frequency : ChoresContext.Frequency) (rotation : bool)
    (assigned_to : option string) (rotation_members : option (list string))
    (current_assignee_index : option Z) : ChoresContext.Chore :=
  {| ChoresContext.id := "chore-1";
     ChoresContext.family_id := "family";
     ChoresContext.title := "Take out the bins";
     ChoresContext.description := None;
     ChoresContext.frequency := frequency;
     ChoresContext.assigned_to := assigned_to;
     ChoresContext.rotation := rotation;
     ChoresContext.rotation_members := rotation_members;
     ChoresContext.current_assignee_index := current_assignee_index;
     ChoresContext.created_at := ISOString jan_31;
     ChoresContext.created_by := "alice";
     ChoresContext.next_due := None;
     ChoresContext.last_completed := None |}%string.



(** Rotation switched on with an empty list of members. *)
Definition empty_rotation (current_assignee_index : option Z)
    : ChoresContext.Chore :=
  chore ChoresContext.weekly true (Some "alice"%string) (Some [])
    current_assignee_index.

(** A chore assigned to one member, without rotation. *)
Definition daily_fixed : ChoresContext.Chore :=
  chore ChoresContext.daily false (Some "bob"%string) None None.

(** A daily chore that was due on 2024-06-09 at 09:00. *)
Definition due_june_9 : ChoresContext.Chore :=
  {| ChoresContext.id := "chore-1";
     ChoresContext.family_id := "family";
     ChoresContext.title := "Take out the bins";
     ChoresContext.description := None;
     ChoresContext.frequency := ChoresContext.daily;
     ChoresContext.assigned_to := Some "bob";
     ChoresContext.rotation := false;
     ChoresContext.rotation_members := None;
     ChoresContext.current_assignee_index := None;
     ChoresContext.created_at := ISOString jan_31;
     ChoresContext.created_by := "alice";
     ChoresContext.next_due :=
       Some (LocalString {| yyyy := 2024; MM := 6; dd := 9;
                            HH := 9; mm := 0; ss := 0 |});
     ChoresContext.last_completed := None |}%string.

(** A rotation between A, B and C at a given index. *)
Definition abc (current_assignee_index : option Z) : ChoresContext.Chore :=
  chore ChoresContext.weekly true None (Some ["A"; "B"; "C"]%string)
    current_assignee_index.

(** A chore form filled in for a rotation between the given members. *)
Definition rotation_form (title : string) (members : list string)
    : ChoresForm.State :=
  {| ChoresForm.title := title;
     ChoresForm.description := EmptyString;
     ChoresForm.frequency := ChoresContext.weekly;
     ChoresForm.rotation := true;
     ChoresForm.assignedTo := None;
     ChoresForm.rotationMembers := members;
     ChoresForm.isSubmitting := false;
     ChoresForm.errors := ChoresForm.Errors.empty |}.

(** The form with a blank title and one rotation member. *)
Definition blank_form : ChoresForm.State :=
  rotation_form "   " ["alice"]%string.

(** The form of a rotation between alice and bob. *)
Definition dishes_form : ChoresForm.State :=
  rotation_form "Dishes" ["alice"; "bob"]%string.

(** The chore that form creates at 2024-06-10T09:00:00Z, and the
    chore after its first completion at the same instant. *)
Definition dishes (assigned_to : option string)
    (current_assignee_index : option Z) (last_completed : option DateString)
    : ChoresContext.Chore :=
  {| ChoresContext.id := "chore-2";
     ChoresContext.family_id := "family";
     ChoresContext.title := "Dishes";
     ChoresContext.description := None;
     ChoresContext.frequency := ChoresContext.weekly;
     ChoresContext.assigned_to := assigned_to;
     ChoresContext.rotation := true;
     ChoresContext.rotation_members := Some ["alice"; "bob"];
     ChoresContext.current_assignee_index := current_assignee_index;
     ChoresContext.created_at := ISOString june_10;
     ChoresContext.created_by := "alice";
     ChoresContext.next_due :=
       Some (LocalString {| yyyy := 2024; MM := 6; dd := 17;
                            HH := 9; mm := 0; ss := 0 |});
     ChoresContext.last_completed := last_completed |}%string.

Definition dishes_created : ChoresContext.Chore := dishes None (Some 0) None.

Definition dishes_completed : ChoresContext.Chore :=
  dishes (Some "bob"%string) (Some 1) (Some (ISOString june_10)).

Definition create_props : ChoresForm.Props :=
  {| ChoresForm.initialData_id := None; ChoresForm.isEditing := false |}.

Definition todo (status : TodosContext.Status) : TodosContext.Todo :=
  {| TodosContext.id := "todo-1";
     TodosContext.family_id := "family";
     TodosContext.title := "Book the dentist";
     TodosContext.description := None;
     TodosContext.due_date := None;
     TodosContext.priority := TodosContext.medium;
     TodosContext.status := status;
     TodosContext.assigned_to := Some "bob";
     TodosContext.created_at := ISOString jan_31;
     TodosContext.created_by := "alice" |}%string.

End Examples.

(* ================================================================= *)
(** * TodosList                                                       *)
(* ================================================================= *)

Module TodosList.
Import JS TodosContext.

(** The filter tabs of the list. *)
Module Filter.
Inductive t : Type := all | mine | pending | completed.
End Filter.

(** The keys of the [groups] object of [groupTodosByDueDate], in the
    order the object lists them. *)
Inductive GroupKey : Type :=
| overdue | today | tomorrow | thisWeek | later | noDueDate.

Definition GroupKey_eqb (a b : GroupKey) : bool :=
  match a, b with
  | overdue, overdue | today, today | tomorrow, tomorrow
  | thisWeek, thisWeek | later, later | noDueDate, noDueDate => true
  | _, _ => false
  end.

Record GroupedTodos : Type := {
  label : string;
  todos : list Todo
}.

Definition group_label (k : GroupKey) : string :=
  match k with
  | overdue => "Overdue"
  | today => "Today"
  | tomorrow => "Tomorrow"
  | thisWeek => "This Week"
  | later => "Later"
  | noDueDate => "No Due Date"
  end.

(** [priorityValue[priority]] *)
Definition priorityValue (p : Priority) : Z :=
  match p with
  | high => 0
  | medium => 1
  | low => 2
  end.

Section LocalTime.

Variable tz : Z.

(** [filteredTodos]: [user_id] is [user?.id]. *)
Definition filteredTodos (filter : Filter.t) (user_id : option string)
    (now : Z) (todos0 : list Todo) : list Todo :=
  filterTodos tz now
    {| Criteria.status :=
         match filter with
         | Filter.all => None
         | Filter.pending => Some Criteria.pending
         | Filter.completed => Some Criteria.completed
         | Filter.mine => None
         end;
       Criteria.assignedTo :=
         match filter with
         | Filter.mine =>
             match user_id with
             | Some u => if truthy u then Just u else Null
             | None => Null
             end
         | _ => Undefined
         end;
       Criteria.priority := None;
       Criteria.dueSoon := None |}
    todos0.

(** The comparator of [sortedTodos]. *)
Definition compareTodos (a b : Todo) : Z :=
  if Status_eqb (status a) completed && negb (Status_eqb (status b) completed)
  then 1
  else if negb (Status_eqb (status a) completed) && Status_eqb (status b) completed
  then -1
  else
    match due_date a, due_date b with
    | Some a_due, Some b_due => newDate tz a_due - newDate tz b_due
    | Some _, None => -1
    | None, Some _ => 1
    | None, None => priorityValue (priority a) - priorityValue (priority b)
    end.

Definition sortedTodos (filter : Filter.t) (user_id : option string)
    (now : Z) (todos0 : list Todo) : list Todo :=
  sort compareTodos (filteredTodos filter user_id now todos0).

(** The body of the [forEach] of [groupTodosByDueDate]: the group a
    to-do is pushed to. *)
Definition group_of (now : Z) (todo : Todo) : GroupKey :=
  let weekFromNow := setDate tz now (getDate tz now + 7) in
  match due_date todo with
  | None => noDueDate
  | Some d =>
      let dueDate := newDate tz d in
      if DateFns.isBefore dueDate now && negb (DateFns.isToday tz now dueDate)
         && negb (Status_eqb (status todo) completed)
      then overdue
      else if DateFns.isToday tz now dueDate then today
      else if DateFns.isTomorrow tz now dueDate then tomorrow
      else if DateFns.isBefore dueDate weekFromNow then thisWeek
      else later
  end.

(** [groupTodosByDueDate()] *)
Definition groupTodosByDueDate (now : Z) (sortedTodos : list Todo)
    : list GroupedTodos :=
  let groups :=
    map (fun k =>
           {| label := group_label k;
              todos := filter (fun todo => GroupKey_eqb (group_of now todo) k)
                              sortedTodos |})
        [overdue; today; tomorrow; thisWeek; later; noDueDate] in
  filter (fun group => (0 <? List.length (todos group))%nat) groups.

(** [formatDueDate(dateString)] *)
Definition formatDueDate (now : Z) (dateString : option DateString) : string :=
  match dateString with
  | None => "No due date"
  | Some s =>
      let dueDate := newDate tz s in
      if DateFns.isToday tz now dueDate then "Today"
      else if DateFns.isTomorrow tz now dueDate then "Tomorrow"
      else if DateFns.isBefore dueDate now && negb (DateFns.isToday tz now dueDate)
      then ("Overdue: " ++ DateFns.format_MMM_d tz dueDate)%string
      else DateFns.format_MMM_d tz dueDate
  end.

End LocalTime.

End TodosList.

(* ================================================================= *)
(** * CalendarContext: the events of a day                            *)
(* ================================================================= *)

Module CalendarContext.
Import JS.

Record EventTime : Type := {
  dateTime : DateString;
  timeZone : option string
}.

Record Attendee : Type := {
  email : string;
  displayName : option string
}.

Record CalendarEvent : Type := {
  id : string;
  calendarId : string;
  summary : string;
  description : option string;
  start : EventTime;
  end_ : EventTime;
  location : option string;
  attendees : option (list Attendee);
  colorId : option string
}.

(** [Calendar]: a missing [selected] key is [None]. *)
Module Calendar.
Record t : Type := {
  id : string;
  summary : string;
  description : option string;
  primary : option bool;
  backgroundColor : option string;
  foregroundColor : option string;
  selected : option bool
}.
End Calendar.

(** [toggleCalendarSelection(calendarId)], on the calendars of the
    provider: [!cal.selected] is [true] for a missing key. *)
Definition toggleCalendarSelection (calendarId : string)
    (prev : list Calendar.t) : list Calendar.t :=
  map (fun cal =>
         if String.eqb (Calendar.id cal) calendarId
         then {| Calendar.id := Calendar.id cal;
                 Calendar.summary := Calendar.summary cal;
                 Calendar.description := Calendar.description cal;
                 Calendar.primary := Calendar.primary cal;
                 Calendar.backgroundColor := Calendar.backgroundColor cal;
                 Calendar.foregroundColor := Calendar.foregroundColor cal;
                 Calendar.selected :=
                   Some (negb (match Calendar.selected cal with
                               | Some b => b
                               | None => false
                               end)) |}
         else cal)
      prev.

(** [ViewType] *)
Module ViewType.
Inductive t : Type := day | week | month.
End ViewType.


Section LocalTime.

Variable tz : Z.


(** [getEventsForDay(date)], on the [events] of the provider. *)
Definition getEventsForDay (events : list CalendarEvent) (date : Z)
    : list CalendarEvent :=
  let dayStart := DateFns.startOfDay tz date in
  let dayEnd := DateFns.endOfDay tz date in
  filter (fun event =>
            let eventStart := newDate tz (dateTime (start event)) in
            (dayStart <=? eventStart) && (eventStart <=? dayEnd))
         events.

(** [getEventsForPeriod(startDate, endDate)] *)
Definition getEventsForPeriod (events : list CalendarEvent)
    (startDate endDate : Z) : list CalendarEvent :=
  filter (fun event =>
            let eventStart := newDate tz (dateTime (start event)) in
            (startDate <=? eventStart) && (eventStart <=? endDate))
         events.

End LocalTime.

End CalendarContext.

(* ================================================================= *)
(** * UpcomingEvents                                                  *)
(* ================================================================= *)

Module UpcomingEvents.
Import JS CalendarContext.


Section LocalTime.

Variable tz : Z.



End LocalTime.

(** [getMemberColor(event)] *)
Definition getMemberColor (event : CalendarEvent) : string :=
  match colorId event with
  | Some c => if truthy c then ("var(--color-" ++ c ++ ")")%string else "#4285F4"
  | None => "#4285F4"
  end.

(** [handleLoadMore()] *)
Definition handleLoadMore (visibleDays : nat) : nat := (visibleDays + 3)%nat.

End UpcomingEvents.

(* ================================================================= *)
(** * The orders the lists are sorted in                              *)
(* ================================================================= *)

(** What the comparators of the two lists order by, to state what
    [sortedChores] and [sortedTodos] return. *)
Module Order.
Import JS.

Section LocalTime.

Variable tz : Z.

(** Chores: 0 for an overdue chore (due before now, on an earlier
    day), 1 for another chore with a due date, 2 without due date. *)
Definition chore_class (now : Z) (chore : ChoresContext.Chore) : Z :=
  match ChoresContext.next_due chore with
  | None => 2
  | Some d =>
      if (newDate tz d <? now) && negb (Spec.same_calendar_day tz (newDate tz d) now)
      then 0 else 1
  end.

(** A chore is before another when its class is lower or, in the
    same class, its due date is not later. *)
Definition chore_before (now : Z) (a b : ChoresContext.Chore) : Prop :=
  chore_class now a < chore_class now b
  \/ (chore_class now a = chore_class now b
      /\ match ChoresContext.next_due a, ChoresContext.next_due b with
         | Some da, Some db => newDate tz da <= newDate tz db
         | _, _ => True
         end).

(** To-dos: the open ones first; then the ones with a due date, by
    due date; then the ones without, by priority (high first). *)
Definition todo_key (todo : TodosContext.Todo) : Z * Z * Z :=
  (match TodosContext.status todo with
   | TodosContext.completed => 1
   | _ => 0
   end,
   match TodosContext.due_date todo with
   | Some _ => 0
   | None => 1
   end,
   match TodosContext.due_date todo with
   | Some d => newDate tz d
   | None => TodosList.priorityValue (TodosContext.priority todo)
   end).

Definition todo_before (a b : TodosContext.Todo) : Prop :=
  let '(a1, a2, a3) := todo_key a in
  let '(b1, b2, b3) := todo_key b in
  a1 < b1 \/ (a1 = b1 /\ (a2 < b2 \/ (a2 = b2 /\ a3 <= b3))).

End LocalTime.

End Order.


(* ================================================================= *)
(** * More concrete cases                                             *)
(* ================================================================= *)

Module Cases.
Import JS Runtime.

(** A session without user and without family. *)
Definition signed_out : Env :=
  {| user := None;
     currentFamily := None;
     clock := Examples.june_10;
     uuid_generate_v4 := "chore-2"%string |}.

(** An update of the title alone. *)
Definition rename (title : string) : ChoresContext.Partial.t :=
  {| ChoresContext.Partial.title := Some title;
     ChoresContext.Partial.description := Undefined;
     ChoresContext.Partial.frequency := None;
     ChoresContext.Partial.rotation := None;
     ChoresContext.Partial.assigned_to := Undefined;
     ChoresContext.Partial.rotation_members := Undefined;
     ChoresContext.Partial.current_assignee_index := Undefined;
     ChoresContext.Partial.next_due := Undefined;
     ChoresContext.Partial.last_completed := Undefined |}.

(** A collation: the order of the character codes. *)
Definition localeCompare (a b : string) : Z :=
  match String.compare a b with
  | Lt => -1
  | Eq => 0
  | Gt => 1
  end.

(** The groups of the chore list at 2024-06-10T09:00:00Z, for the
    chore due the day before under the "Due" tab, and for the
    completed dishes under the "Completed" tab. *)
Definition overdue_group : ChoresList.GroupedChores :=
  {| ChoresList.label := "Overdue";
     ChoresList.chores := [Examples.due_june_9] |}.

Definition completed_group : ChoresList.GroupedChores :=
  {| ChoresList.label := "Recently Completed";
     ChoresList.chores := [Examples.dishes_completed] |}.

(** The props of the form that edits the chore "chore-1". *)
Definition edit_props : ChoresForm.Props :=
  {| ChoresForm.initialData_id := Some "chore-1"%string;
     ChoresForm.isEditing := true |}.

(** A to-do that was due on 2024-06-10 at 09:00 UTC. *)
Definition dated_todo (status : TodosContext.Status) : TodosContext.Todo :=
  {| TodosContext.id := "todo-2";
     TodosContext.family_id := "family";
     TodosContext.title := "Renew the passport";
     TodosContext.description := None;
     TodosContext.due_date := Some (ISOString Examples.june_10);
     TodosContext.priority := TodosContext.high;
     TodosContext.status := status;
     TodosContext.assigned_to := None;
     TodosContext.created_at := ISOString Examples.jan_31;
     TodosContext.created_by := "alice" |}%string.



End Cases.
(* ================================================================= *)
(** * Facts about the Date object                                     *)
(* ================================================================= *)

Module DateFacts.
Import JS.

Ltac zdiv := Z.to_euclidean_division_equations; lia.

(** Evaluate the month table at the literal months of the goal. *)
Ltac month_table :=
  repeat match goal with
         | |- context [DaysBeforeMonth ?l (?k + 1)] =>
             let v := eval compute in (k + 1) in change (k + 1) with v
         | H : context [DaysBeforeMonth ?l (?k + 1)] |- _ =>
             let v := eval compute in (k + 1) in change (k + 1) with v in H
         end;
  cbv beta iota delta [DaysBeforeMonth DaysInMonth] in *.

Lemma DaysInYear_leapDays y : DaysInYear y = 365 + leapDays y.
Proof. unfold DaysInYear, leapDays. destruct (InLeapYear y); reflexivity. Qed.

Lemma leapDays_range y : 0 <= leapDays y <= 1.
Proof. unfold leapDays. destruct (InLeapYear y); lia. Qed.

Lemma DayFromYear_succ y : DayFromYear (y + 1) = DayFromYear y + DaysInYear y.
Proof.
  unfold DayFromYear, DaysInYear, InLeapYear.
  destruct (Z.eqb_spec (y mod 4) 0); destruct (Z.eqb_spec (y mod 100) 0);
    destruct (Z.eqb_spec (y mod 400) 0); cbn [andb orb negb]; zdiv.
Qed.

(** [YearFromDay d] is the year day [d] falls in ... *)
Lemma YearFromDay_bounds d :
  DayFromYear (YearFromDay d) <= d < DayFromYear (YearFromDay d + 1).
Proof.
  unfold YearFromDay.
  set (y := 1970 + d * 400 / 146097).
  destruct (Z.ltb_spec d (DayFromYear y)) as [Hlt | Hge].
  - replace (y - 1 + 1) with y by lia. split; [|lia].
    unfold DayFromYear in *. subst y. zdiv.
  - destruct (Z.leb_spec (DayFromYear (y + 1)) d) as [Hle | Hgt]; [|lia].
    split; [lia|]. unfold DayFromYear in *. subst y. zdiv.
Qed.


Lemma DayWithinYear_bounds t :
  0 <= DayWithinYear t < 365 + leapDays (YearFromTime t).
Proof.
  unfold DayWithinYear, YearFromTime.
  pose proof (YearFromDay_bounds (Day t)) as B.
  rewrite DayFromYear_succ, DaysInYear_leapDays in B. lia.
Qed.

(** The month table: [MonthFromTime] picks the row that holds the
    day of the year. *)
Lemma MonthFromTime_table t :
  0 <= MonthFromTime t <= 11 /\
  DaysBeforeMonth (leapDays (YearFromTime t)) (MonthFromTime t)
    <= DayWithinYear t
    < DaysBeforeMonth (leapDays (YearFromTime t)) (MonthFromTime t + 1).
Proof.
  pose proof (DayWithinYear_bounds t) as B.
  pose proof (leapDays_range (YearFromTime t)) as L.
  unfold MonthFromTime.
  set (w := DayWithinYear t) in *. set (l := leapDays (YearFromTime t)) in *.
  cbv zeta.
  repeat match goal with
         | |- context [?a <? ?b] => destruct (Z.ltb_spec a b)
         end; month_table; lia.
Qed.


(** The fields of a time value give back its day number. *)
Lemma MakeDay_fields t date :
  MakeDay (YearFromTime t) (MonthFromTime t) date
  = Day t - DateFromTime t + date.
Proof.
  pose proof (MonthFromTime_table t) as [R _].
  unfold MakeDay, DateFromTime, DayWithinYear.
  replace (MonthFromTime t / 12) with 0 by zdiv.
  replace (MonthFromTime t mod 12) with (MonthFromTime t) by zdiv.
  rewrite Z.add_0_r. lia.
Qed.

Lemma MakeDate_Day t : MakeDate (Day t) (TimeWithinDay t) = t.
Proof. unfold MakeDate, Day, TimeWithinDay, msPerDay. zdiv. Qed.

Lemma Day_MakeDate d time :
  0 <= time < msPerDay -> Day (MakeDate d time) = d.
Proof. unfold MakeDate, Day, msPerDay. intros. zdiv. Qed.

Lemma TimeWithinDay_MakeDate d time :
  0 <= time < msPerDay -> TimeWithinDay (MakeDate d time) = time.
Proof. unfold MakeDate, TimeWithinDay, msPerDay. intros. zdiv. Qed.



Lemma MakeTime_fields t :
  MakeTime (HourFromTime t) (MinFromTime t) (SecFromTime t) 0
  = TimeWithinDay t - msFromTime t.
Proof.
  unfold MakeTime, HourFromTime, MinFromTime, SecFromTime, TimeWithinDay,
    msFromTime, msPerHour, msPerMinute, msPerSecond, msPerDay.
  zdiv.
Qed.

Ltac month_cases m :=
  let C := fresh "C" in
  assert (m = 0 \/ m = 1 \/ m = 2 \/ m = 3 \/ m = 4 \/ m = 5 \/ m = 6 \/
          m = 7 \/ m = 8 \/ m = 9 \/ m = 10 \/ m = 11) as C by lia;
  repeat (destruct C as [C | C]; [subst m|]); [..|subst m].

Lemma DaysInMonth_range y m : 0 <= m <= 11 -> 28 <= DaysInMonth y m <= 31.
Proof.
  intros Hm. pose proof (leapDays_range y) as L.
  set (l := leapDays y) in *. unfold DaysInMonth. fold l. clearbody l.
  month_cases m; month_table; lia.
Qed.







Section LocalTime.

Variable tz : Z.

Lemma UTC_LocalTime t : UTC tz (LocalTime tz t) = t.
Proof. unfold UTC, LocalTime. lia. Qed.

Lemma LocalTime_UTC t : LocalTime tz (UTC tz t) = t.
Proof. unfold UTC, LocalTime. lia. Qed.

Lemma msFromTime_LocalTime d : msFromTime (LocalTime tz d) = msFromTime d.
Proof.
  unfold msFromTime, LocalTime, LocalTZA, msPerMinute, msPerSecond. zdiv.
Qed.

(** Moving the day of the month by [n] moves the date by [n] days. *)
Lemma setDate_getDate d n :
  setDate tz d (getDate tz d + n) = d + n * msPerDay.
Proof.
  unfold setDate, getDate. rewrite MakeDay_fields.
  replace (Day (LocalTime tz d) - DateFromTime (LocalTime tz d)
           + (DateFromTime (LocalTime tz d) + n))
    with (Day (LocalTime tz d) + n) by lia.
  pose proof (MakeDate_Day (LocalTime tz d)) as E.
  unfold MakeDate, UTC, LocalTime in *. lia.
Qed.

Lemma addDays_eq date amount :
  DateFns.addDays tz date amount = date + amount * msPerDay.
Proof.
  unfold DateFns.addDays. destruct (Z.eqb_spec amount 0) as [-> | _].
  - lia.
  - apply setDate_getDate.
Qed.

Lemma startOfDay_eq date :
  DateFns.startOfDay tz date
  = UTC tz (Day (LocalTime tz date) * msPerDay).
Proof.
  unfold DateFns.startOfDay, setHours, MakeDate, MakeTime. f_equal. lia.
Qed.

(** Two dates are on the same day when their local day numbers
    agree. *)
Lemma isSameDay_iff l r :
  DateFns.isSameDay tz l r = true
  <-> Day (LocalTime tz l) = Day (LocalTime tz r).
Proof.
  unfold DateFns.isSameDay. rewrite !startOfDay_eq, Z.eqb_eq.
  unfold UTC, msPerDay. lia.
Qed.

Lemma Day_shift t n : Day (t + n * msPerDay) = Day t + n.
Proof. unfold Day, msPerDay. zdiv. Qed.

(** The start of the week of a date, for weeks that start on week
    day [w]: the local midnight that opens the seven-day block of
    the date. *)
Lemma startOfWeek_eq date w :
  0 <= w <= 6 ->
  DateFns.startOfWeek tz date (Some w)
  = UTC tz ((7 * ((Day (LocalTime tz date) + 4 - w) / 7) - 4 + w) * msPerDay).
Proof.
  intros Hw. unfold DateFns.startOfWeek.
  set (day := getDay tz date).
  set (diff := (if day <? w then 7 else 0) + day - w).
  replace (getDate tz date - diff) with (getDate tz date + - diff) by lia.
  rewrite setDate_getDate.
  unfold setHours, MakeDate, MakeTime.
  replace (LocalTime tz (date + - diff * msPerDay))
    with (LocalTime tz date + - diff * msPerDay) by (unfold LocalTime; lia).
  rewrite Day_shift. f_equal.
  subst diff day. unfold getDay, WeekDay.
  set (D := Day (LocalTime tz date)).
  unfold msPerDay, msPerHour, msPerMinute, msPerSecond.
  destruct (Z.ltb_spec ((D + 4) mod 7) w); zdiv.
Qed.

Lemma startOfWeek_default date :
  DateFns.startOfWeek tz date None = DateFns.startOfWeek tz date (Some 0).
Proof. unfold DateFns.startOfWeek. cbv beta iota zeta. reflexivity. Qed.

Lemma isSameWeek_default l r :
  DateFns.isSameWeek tz l r None = DateFns.isSameWeek tz l r (Some 0).
Proof.
  unfold DateFns.isSameWeek. rewrite !startOfWeek_default. reflexivity.
Qed.

Lemma isSameWeek_iff l r w :
  0 <= w <= 6 ->
  DateFns.isSameWeek tz l r (Some w) = true
  <-> (Day (LocalTime tz l) + 4 - w) / 7 = (Day (LocalTime tz r) + 4 - w) / 7.
Proof.
  intros Hw. unfold DateFns.isSameWeek.
  rewrite !startOfWeek_eq, Z.eqb_eq by assumption.
  unfold UTC, msPerDay. lia.
Qed.

(** Reading back what [format] wrote gives the date, to the second. *)
Lemma newDate_format d :
  newDate tz (LocalString (DateFns.format tz d)) = d - msFromTime d.
Proof.
  unfold newDate, DateFns.format; cbn [yyyy MM dd HH mm ss].
  unfold getFullYear, getMonth, getDate, getHours, getMinutes, getSeconds.
  replace (MonthFromTime (LocalTime tz d) + 1 - 1)
    with (MonthFromTime (LocalTime tz d)) by lia.
  rewrite MakeDay_fields, MakeTime_fields, msFromTime_LocalTime.
  pose proof (MakeDate_Day (LocalTime tz d)) as E.
  unfold MakeDate, UTC, LocalTime in *. lia.
Qed.





End LocalTime.

End DateFacts.

(* ================================================================= *)
(** * Recurrence: calculateNextDueDate                                *)
(* ================================================================= *)

Module RecurrenceFacts.
Import JS ChoresContext DateFacts.

Lemma msFromTime_shift t n : msFromTime (t + n * msPerDay) = msFromTime t.
Proof. unfold msFromTime, msPerDay, msPerSecond. zdiv. Qed.

Section LocalTime.

Variable tz : Z.





End LocalTime.


(** The same computation five hours behind UTC (New York in winter). *)
Example new_york_monthly_jan_31 :
  text (calculateNextDueDate (-300) 0 monthly (Some (toISOString Examples.jan_31)))
  = "2024-03-02T04:00:00"%string.
Proof. vm_compute. reflexivity. Qed.

Example calculateNextDueDate_weekly_june_10 :
  text (calculateNextDueDate 0 0 weekly (Some (toISOString Examples.june_10)))
  = "2024-06-17T09:00:00"%string.
Proof. vm_compute. reflexivity. Qed.

End RecurrenceFacts.

(* ================================================================= *)
(** * Due states: groupChoresByStatus                                 *)
(* ================================================================= *)

Module DueStateFacts.
Import JS ChoresContext ChoresList DateFacts.

Section LocalTime.

Variable tz : Z.

Lemma isToday_same_calendar_day now date :
  DateFns.isToday tz now date = Spec.same_calendar_day tz date now.
Proof.
  apply Bool.eq_true_iff_eq. unfold DateFns.isToday, Spec.same_calendar_day.
  rewrite isSameDay_iff, Z.eqb_eq. reflexivity.
Qed.

(** [isThisWeek] without options compares Sunday-to-Saturday
    weeks ... *)
Lemma isThisWeek_sunday_week now date :
  DateFns.isThisWeek tz now date None
  = (Spec.sunday_week tz date =? Spec.sunday_week tz now).
Proof.
  apply Bool.eq_true_iff_eq.
  unfold DateFns.isThisWeek, Spec.sunday_week.
  rewrite isSameWeek_default, isSameWeek_iff, Z.eqb_eq by lia.
  rewrite !Z.sub_0_r. reflexivity.
Qed.

(** ... and Monday-to-Sunday weeks with [weekStartsOn: 1]. *)
Lemma isThisWeek_monday_week now date :
  DateFns.isThisWeek tz now date (Some 1)
  = (Spec.monday_week tz date =? Spec.monday_week tz now).
Proof.
  apply Bool.eq_true_iff_eq.
  unfold DateFns.isThisWeek, Spec.monday_week.
  rewrite isSameWeek_iff, Z.eqb_eq by lia.
  replace (Day (LocalTime tz date) + 4 - 1) with (Day (LocalTime tz date) + 3) by lia.
  replace (Day (LocalTime tz now) + 4 - 1) with (Day (LocalTime tz now) + 3) by lia.
  reflexivity.
Qed.

(** The group of a chore, in the terms of the specification: the
    week test comes first and decides alone. *)
Lemma group_of_eq now chore :
  group_of tz now chore
  = if match last_completed chore with
       | Some lc => Spec.sunday_week tz (newDate tz lc) =? Spec.sunday_week tz now
       | None => false
       end
    then completed
    else
      match next_due chore with
      | None => upcoming
      | Some nd =>
          let due := newDate tz nd in
          if (due <? now) && negb (Spec.same_calendar_day tz due now) then overdue
          else if Spec.same_calendar_day tz due now then dueToday
          else upcoming
      end.
Proof.
  unfold group_of, DateFns.isPast.
  destruct (last_completed chore) as [lc|].
  - rewrite isThisWeek_sunday_week.
    destruct (Spec.sunday_week tz (newDate tz lc) =? Spec.sunday_week tz now);
      [reflexivity|].
    destruct (next_due chore); [|reflexivity].
    cbv zeta. rewrite isToday_same_calendar_day. reflexivity.
  - destruct (next_due chore); [|reflexivity].
    cbv zeta. rewrite isToday_same_calendar_day. reflexivity.
Qed.

(** A chore completed in the current Sunday-to-Saturday week is in
    the "Recently Completed" group whatever its due timestamp. *)
Lemma group_of_completed_iff now chore :
  group_of tz now chore = completed
  <-> exists lc, last_completed chore = Some lc /\
                 Spec.sunday_week tz (newDate tz lc) = Spec.sunday_week tz now.
Proof.
  rewrite group_of_eq. split.
  - destruct (last_completed chore) as [lc|].
    + destruct (Z.eqb_spec (Spec.sunday_week tz (newDate tz lc))
                           (Spec.sunday_week tz now)) as [E | N].
      * intros _. exists lc. split; trivial.
      * destruct (next_due chore); cbv zeta;
          repeat match goal with
                 | |- context [if ?b then _ else _] => destruct b
                 end; discriminate.
    + destruct (next_due chore); cbv zeta;
        repeat match goal with
               | |- context [if ?b then _ else _] => destruct b
               end; discriminate.
  - intros (lc & -> & E). rewrite E, Z.eqb_refl. reflexivity.
Qed.

(** C5 (amended).  For every chore that is not put in the
    "Recently Completed" group, the grouping follows this ladder:
    without a due timestamp the chore is Upcoming (the list has no
    group for chores without a due date); with a due timestamp
    strictly before now and not on the calendar day of now it is
    Overdue; with a due timestamp on the calendar day of now it is
    Due Today; otherwise it is Upcoming. *)
Theorem group_of_due_ladder now chore :
  group_of tz now chore <> completed ->
  group_of tz now chore
  = match next_due chore with
    | None => upcoming
    | Some nd =>
        let due := newDate tz nd in
        if (due <? now) && negb (Spec.same_calendar_day tz due now) then overdue
        else if Spec.same_calendar_day tz due now then dueToday
        else upcoming
    end.
Proof.
  rewrite group_of_eq.
  destruct (match last_completed chore with
            | Some lc => Spec.sunday_week tz (newDate tz lc) =? Spec.sunday_week tz now
            | None => false
            end); [congruence | reflexivity].
Qed.

(** Every chore of the sorted list is in the group [group_of]
    names, and in no other. *)
Lemma groupChoresByStatus_In now sortedChores group chore :
  In group (groupChoresByStatus tz now sortedChores) ->
  In chore (chores group) ->
  In chore sortedChores /\ label group = group_label (group_of tz now chore).
Proof.
  unfold groupChoresByStatus. rewrite filter_In, in_map_iff.
  intros [(k & <- & _) _]. cbn [chores label]. rewrite filter_In.
  intros [Hin Hk]. split; trivial.
  destruct (group_of tz now chore), k; try discriminate; reflexivity.
Qed.

Lemma groupChoresByStatus_complete now sortedChores chore :
  In chore sortedChores ->
  exists group,
    In group (groupChoresByStatus tz now sortedChores) /\
    label group = group_label (group_of tz now chore) /\
    In chore (chores group).
Proof.
  intros Hin.
  set (k := group_of tz now chore).
  exists {| label := group_label k;
            chores := filter (fun c => GroupKey_eqb (group_of tz now c) k)
                             sortedChores |}.
  assert (In chore (filter (fun c => GroupKey_eqb (group_of tz now c) k) sortedChores))
    as Hf.
  { apply filter_In. split; trivial. fold k. destruct k; reflexivity. }
  repeat split; trivial.
  unfold groupChoresByStatus. apply filter_In. split.
  - apply in_map_iff. exists k. split; trivial.
    destruct k; cbn; tauto.
  - cbn [chores].
    destruct (filter (fun c => GroupKey_eqb (group_of tz now c) k) sortedChores);
      [contradiction | reflexivity].
Qed.

End LocalTime.

(** C5, as stated, fails: a chore without due timestamp, never
    completed, is put in the "Upcoming" group, where the claim has the
    state NoDueDate. *)
Lemma group_of_without_due_date :
  next_due Examples.daily_fixed = None
  /\ group_of 0 Examples.june_10 Examples.daily_fixed <> completed
  /\ Spec.classify 0 None None Examples.june_10 = Spec.NoDueDate
  /\ group_of 0 Examples.june_10 Examples.daily_fixed = upcoming
  /\ Spec.state_of_group (group_of 0 Examples.june_10 Examples.daily_fixed)
     <> Spec.NoDueDate.
Proof.
  repeat split; try discriminate; vm_compute; congruence.
Qed.

(** The ladder at a chore due the day before. *)
Lemma group_of_due_ladder_witness :
  group_of 0 Examples.june_10 Examples.due_june_9 <> completed
  /\ group_of 0 Examples.june_10 Examples.due_june_9 = overdue.
Proof.
  match goal with
  | |- ?P /\ _ =>
      assert P as H by (vm_compute; discriminate)
  end.
  split; [exact H|].
  rewrite (group_of_due_ladder 0 Examples.june_10 _ H).
  vm_compute. reflexivity.
Defined.

(** C6: the code differs from the claim.  A daily chore completed on
    Saturday 2024-06-15 at noon and looked at on Sunday 2024-06-16:
    the completion is in the current Monday-to-Sunday week, so the
    claim has the chore RecentlyCompleted; [isThisWeek] is called
    without [weekStartsOn], its week started on that Sunday, and the
    chore is grouped by its due date, under "Due Today". *)
Theorem group_of_saturday_completion_on_sunday :
  exists chore,
    completeChore 0 (Examples.env Examples.june_15_noon) "chore-1"
      [Examples.daily_fixed] = Some (chore, [chore])
    /\ last_completed chore = Some (ISOString Examples.june_15_noon)
    /\ Spec.monday_week 0 Examples.june_15_noon = Spec.monday_week 0 Examples.june_16
    /\ Spec.classify 0 (option_map (newDate 0) (next_due chore))
         (Some Examples.june_15_noon) Examples.june_16
       = Spec.RecentlyCompleted
    /\ DateFns.isThisWeek 0 Examples.june_16 Examples.june_15_noon (Some 1) = true
    /\ DateFns.isThisWeek 0 Examples.june_16 Examples.june_15_noon None = false
    /\ group_of 0 Examples.june_16 chore = dueToday.
Proof.
  eexists. split; [vm_compute; reflexivity|].
  repeat split; vm_compute; reflexivity.
Qed.

End DueStateFacts.

(* ================================================================= *)
(** * Completion and rotation: completeChore                          *)
(* ================================================================= *)

Module CompletionFacts.
Import JS Runtime ChoresContext.


Lemma updateChore_eq env id' updates chores row f :
  currentFamily env = Some f ->
  find_chore id' chores = Some row ->
  family_id row = f ->
  updateChore env id' updates chores
  = Some (update_row updates row, replace_chore id' (update_row updates row) chores).
Proof.
  intros Hf Hrow Hfam. unfold updateChore.
  rewrite Hf, Hrow, Hfam, String.eqb_refl. reflexivity.
Qed.

Lemma updateChore_inv env id' updates chores data chores' :
  updateChore env id' updates chores = Some (data, chores') ->
  exists row,
    find_chore id' chores = Some row /\
    currentFamily env = Some (family_id row) /\
    data = update_row updates row /\
    chores' = replace_chore id' data chores.
Proof.
  unfold updateChore.
  destruct (currentFamily env) as [f|]; [|discriminate].
  destruct (find_chore id' chores) as [row|]; [|discriminate].
  destruct (String.eqb_spec (family_id row) f) as [<- | _]; [|discriminate].
  intros [= <- <-]. exists row. repeat split.
Qed.

(** ** Rotation arithmetic *)





Section LocalTime.

Variable tz : Z.

Lemma completeChore_eq env id' chores chore f :
  currentFamily env = Some f ->
  find_chore id' chores = Some chore ->
  family_id chore = f ->
  completeChore tz env id' chores
  = Some (update_row (completeChore_updates tz (clock env) chore) chore,
          replace_chore id'
            (update_row (completeChore_updates tz (clock env) chore) chore) chores).
Proof.
  intros Hf Hc Hfam. unfold completeChore. rewrite Hc.
  apply (updateChore_eq env id' _ chores chore f); assumption.
Qed.

Lemma completeChore_inv env id' chores data chores' :
  completeChore tz env id' chores = Some (data, chores') ->
  exists chore,
    find_chore id' chores = Some chore /\
    currentFamily env = Some (family_id chore) /\
    data = update_row (completeChore_updates tz (clock env) chore) chore /\
    chores' = replace_chore id' data chores.
Proof.
  unfold completeChore.
  destruct (find_chore id' chores) as [chore|] eqn:Hc; [|discriminate].
  intros H. apply updateChore_inv in H as (row & Hrow & Hf & -> & ->).
  rewrite Hc in Hrow. injection Hrow as <-.
  exists chore. repeat split; assumption.
Qed.



(** Without rotation, or without a list of members, the row keeps
    its assignee and its index. *)
Lemma update_row_fixed now chore :
  rotation chore = false \/ rotation_members chore = None ->
  update_row (completeChore_updates tz now chore) chore
  = {| id := id chore;
       family_id := family_id chore;
       title := title chore;
       description := description chore;
       frequency := frequency chore;
       assigned_to := assigned_to chore;
       rotation := rotation chore;
       rotation_members := rotation_members chore;
       current_assignee_index := current_assignee_index chore;
       created_at := created_at chore;
       created_by := created_by chore;
       next_due :=
         Some (calculateNextDueDate tz now (frequency chore) (Some (toISOString now)));
       last_completed := Some (toISOString now) |}.
Proof.
  intros H. unfold update_row, completeChore_updates, getNextAssignee.
  destruct chore as [? ? ? ? ? a r m i ? ? ? ?]; cbn in *.
  destruct H as [-> | ->]; destruct a, i; try destruct r; try destruct m;
    reflexivity.
Qed.


(** Rotation enabled without a list of members ([null]): the
    [else] branch, as for a chore without rotation. *)
Lemma completeChore_null_members env id' chores chore f :
  currentFamily env = Some f ->
  find_chore id' chores = Some chore ->
  family_id chore = f ->
  rotation_members chore = None ->
  exists chore',
    completeChore tz env id' chores = Some (chore', replace_chore id' chore' chores)
    /\ assigned_to chore' = assigned_to chore
    /\ current_assignee_index chore' = current_assignee_index chore
    /\ last_completed chore' = Some (toISOString (clock env)).
Proof.
  intros Hf Hc Hfam Hmem.
  rewrite (completeChore_eq env id' chores chore f Hf Hc Hfam).
  rewrite update_row_fixed by (right; exact Hmem).
  eexists. split; [reflexivity|]. repeat split.
Qed.

(** Rotation enabled with an empty list of members: the assignee
    is kept ([getNextAssignee] tests the length), the index is not
    (the [updates] object tests the list only): a null index becomes
    0, and an index [i] becomes [(i + 1) % 0], which is [NaN] and is
    stored as null. *)
Lemma update_row_empty_rotation now chore :
  rotation chore = true ->
  rotation_members chore = Some [] ->
  assigned_to (update_row (completeChore_updates tz now chore) chore)
    = assigned_to chore
  /\ current_assignee_index (update_row (completeChore_updates tz now chore) chore)
    = match current_assignee_index chore with
      | Some _ => None
      | None => Some 0
      end.
Proof.
  intros Hrot Hmem. unfold update_row, completeChore_updates, getNextAssignee.
  destruct chore as [? ? ? ? ? a r m i ? ? ? ?]; cbn in *. subst r m.
  destruct a, i; split; reflexivity.
Qed.



End LocalTime.

(** ** The scenarios of the specification *)



(** advance([A, B, C], null) = (0, A); advance([A, B, C], 0) = (1, B);
    advance([A, B, C], 2) = (0, A). *)
Example advance_ABC :
  let advance i :=
    (Partial.current_assignee_index (completeChore_updates 0 0 (Examples.abc i)),
     Partial.assigned_to (completeChore_updates 0 0 (Examples.abc i))) in
  advance None = (Just (Int 0), Just "A"%string)
  /\ advance (Some 0) = (Just (Int 1), Just "B"%string)
  /\ advance (Some 2) = (Just (Int 0), Just "A"%string).
Proof. cbv zeta. repeat split. Qed.

(** Members [A, B], no index yet: three completions assign A at
    index 0, B at index 1, and A at index 0 again. *)
Example three_completions :
  let complete c := update_row (completeChore_updates 0 0 c) c in
  let start := Examples.chore weekly true None (Some ["A"; "B"]%string) None in
  let position c := (assigned_to c, current_assignee_index c) in
  position (complete start) = (Some "A"%string, Some 0)
  /\ position (complete (complete start)) = (Some "B"%string, Some 1)
  /\ position (complete (complete (complete start))) = (Some "A"%string, Some 0).
Proof. cbv zeta. repeat split; vm_compute; reflexivity. Qed.



(** C8: the code differs from the claim.  Completing a chore with
    rotation enabled and an empty list of members keeps the assignee
    but not the index: a null index is stored as 0, and the index 0
    is stored as null (the [updates] object holds [NaN]). *)
Theorem completeChore_empty_rotation :
  (exists chore',
     completeChore 0 (Examples.env Examples.june_10) "chore-1"
       [Examples.empty_rotation None] = Some (chore', [chore'])
     /\ assigned_to chore' = assigned_to (Examples.empty_rotation None)
     /\ current_assignee_index (Examples.empty_rotation None) = None
     /\ current_assignee_index chore' = Some 0)
  /\ (exists chore',
       completeChore 0 (Examples.env Examples.june_10) "chore-1"
         [Examples.empty_rotation (Some 0)] = Some (chore', [chore'])
       /\ assigned_to chore' = assigned_to (Examples.empty_rotation (Some 0))
       /\ Partial.current_assignee_index
            (completeChore_updates 0 Examples.june_10 (Examples.empty_rotation (Some 0)))
          = Just NaN
       /\ current_assignee_index (Examples.empty_rotation (Some 0)) = Some 0
       /\ current_assignee_index chore' = None).
Proof.
  split; eexists; (split; [vm_compute; reflexivity|]); repeat split.
Qed.

End CompletionFacts.

(* ================================================================= *)
(** * The chore form: validateForm, handleSubmit                      *)
(* ================================================================= *)

Module FormFacts.
Import JS Runtime ChoresForm.

Lemma trimEnd_empty s : trimEnd s = EmptyString <-> all_white_space s = true.
Proof.
  induction s as [|c s IH]; cbn.
  - tauto.
  - destruct (trimEnd s) as [|c' t].
    + destruct (isWhiteSpace c); cbn.
      * tauto.
      * split; discriminate.
    + split; [discriminate|].
      rewrite andb_true_iff. intros [_ H]. apply IH in H. discriminate.
Qed.

Lemma all_white_space_trimStart s :
  all_white_space (trimStart s) = all_white_space s.
Proof.
  induction s as [|c s IH]; cbn; [reflexivity|].
  destruct (isWhiteSpace c) eqn:E; cbn.
  - exact IH.
  - rewrite E. reflexivity.
Qed.

(** A title is rejected as missing exactly when it holds white space
    only. *)
Lemma truthy_trim s : truthy (trim s) = negb (all_white_space s).
Proof.
  unfold trim. rewrite <- (all_white_space_trimStart s).
  destruct (trimEnd (trimStart s)) eqn:E; cbn.
  - apply trimEnd_empty in E. rewrite E. reflexivity.
  - destruct (all_white_space (trimStart s)) eqn:W; [|reflexivity].
    apply trimEnd_empty in W. congruence.
Qed.

Lemma validateForm_valid s :
  snd (validateForm s) = true
  <-> all_white_space (title s) = false
      /\ (rotation s = true -> (2 <= List.length (rotationMembers s))%nat).
Proof.
  unfold validateForm; cbn [snd Errors.keys_length Errors.title Errors.rotation
    Errors.submit]. rewrite truthy_trim, negb_involutive.
  destruct (all_white_space (title s)); cbn [Errors.count].
  - destruct (rotation s && _)%bool; cbn; split; try discriminate;
      intros [H _]; discriminate.
  - destruct (rotation s); cbn [andb].
    + destruct (Nat.ltb_spec (List.length (rotationMembers s)) 2); cbn.
      * split; [discriminate|]. intros [_ H']. specialize (H' eq_refl). lia.
      * split; trivial. intros _. split; trivial.
    + cbn. split; trivial. intros _. split; [trivial | discriminate].
Qed.

(** C9.  For every chore form submission with an empty or
    white-space-only title, or with rotation enabled and fewer than 2
    rotation members selected, the submission is rejected before any
    write: no create or update is invoked on the chores context, the
    chores are unchanged, the form stays open and keeps its fields,
    and the message is shown under the field at fault (under the
    title input, under the member check boxes). *)
Theorem handleSubmit_rejects tz env props s chores0 :
  all_white_space (title s) = true
  \/ (rotation s = true /\ (List.length (rotationMembers s) < 2)%nat) ->
  let out := handleSubmit tz env props s chores0 in
  invoked out = []
  /\ chores out = chores0
  /\ closed out = false
  /\ state out = setErrors s (fst (validateForm s))
  /\ (all_white_space (title s) = true ->
      title_error_paragraph (state out) = Some "Title is required"%string)
  /\ (rotation s = true /\ (List.length (rotationMembers s) < 2)%nat ->
      rotation_error_paragraph (state out)
      = Some "Rotation requires at least 2 family members"%string).
Proof.
  intros H out.
  assert (snd (validateForm s) = false) as Hinvalid.
  { destruct (snd (validateForm s)) eqn:E; [|reflexivity].
    apply validateForm_valid in E as [Ht Hr].
    destruct H as [H | [H1 H2]]; [congruence|]. specialize (Hr H1). lia. }
  assert (out = {| state := setErrors s (fst (validateForm s));
                  chores := chores0; invoked := []; closed := false |}) as ->.
  { subst out. unfold handleSubmit.
    destruct (validateForm s) as [newErrors valid]; cbn [fst snd] in *.
    rewrite Hinvalid. reflexivity. }
  cbn [invoked chores closed state].
  repeat split.
  - intros Ht. unfold title_error_paragraph, validateForm;
      cbn [fst setErrors errors Errors.title].
    rewrite truthy_trim, Ht. reflexivity.
  - intros [Hr Hl]. unfold rotation_error_paragraph, validateForm;
      cbn [fst setErrors errors rotation Errors.rotation].
    rewrite Hr. apply Nat.ltb_lt in Hl. rewrite Hl. reflexivity.
Qed.

Lemma handleSubmit_rejects_witness :
  all_white_space (title Examples.blank_form) = true
  /\ (List.length (rotationMembers Examples.blank_form) < 2)%nat
  /\ invoked (handleSubmit 0 (Examples.env Examples.june_10)
                Examples.create_props Examples.blank_form []) = []
  /\ chores (handleSubmit 0 (Examples.env Examples.june_10)
               Examples.create_props Examples.blank_form []) = []
  /\ title_error_paragraph
       (state (handleSubmit 0 (Examples.env Examples.june_10)
                 Examples.create_props Examples.blank_form []))
     = Some "Title is required"%string
  /\ rotation_error_paragraph
       (state (handleSubmit 0 (Examples.env Examples.june_10)
                 Examples.create_props Examples.blank_form []))
     = Some "Rotation requires at least 2 family members"%string.
Proof.
  destruct (handleSubmit_rejects 0 (Examples.env Examples.june_10)
              Examples.create_props Examples.blank_form []
              (or_introl eq_refl)) as (H1 & H2 & _ & _ & H5 & H6).
  split; [reflexivity|]. split; [cbn; lia|].
  split; [exact H1|]. split; [exact H2|].
  split; [exact (H5 eq_refl)|].
  apply H6. split; [reflexivity | cbn; lia].
Defined.

(** A valid submission does write: the form of a rotation between
    two members creates the chore. *)
Example handleSubmit_creates :
  let s := Examples.dishes_form in
  let out := handleSubmit 0 (Examples.env Examples.june_10) Examples.create_props s [] in
  invoked out = [call_createChore (choreData s)]
  /\ List.length (chores out) = 1%nat
  /\ closed out = true.
Proof. cbv zeta. repeat split; vm_compute; reflexivity. Qed.

End FormFacts.

(* ================================================================= *)
(** * The rotation fields of the chores the application produces      *)
(* ================================================================= *)

Module LifecycleFacts.
Import JS Runtime ChoresContext Lifecycle CompletionFacts.


Section LocalTime.

Variable tz : Z.


End LocalTime.



End LifecycleFacts.

(* ================================================================= *)
(** * To-dos: toggleTodoStatus                                        *)
(* ================================================================= *)

Module TodoFacts.
Import JS Runtime TodosContext.

Lemma updateTodo_eq env id' updates todos row f :
  currentFamily env = Some f ->
  find_todo id' todos = Some row ->
  family_id row = f ->
  updateTodo env id' updates todos
  = Some (update_row updates row, replace_todo id' (update_row updates row) todos).
Proof.
  intros Hf Hrow Hfam. unfold updateTodo.
  rewrite Hf, Hrow, Hfam, String.eqb_refl. reflexivity.
Qed.

(** C10.  For every to-do, [toggleTodoStatus] sets the status to
    [pending] if and only if the current status is [completed], and to
    [completed] otherwise: a to-do [in_progress] goes to [completed],
    not to [pending]; no field other than the status is modified. *)
Theorem toggleTodoStatus_status env id' todos todo f :
  currentFamily env = Some f ->
  find_todo id' todos = Some todo ->
  family_id todo = f ->
  let todo' :=
    {| id := id todo;
       family_id := family_id todo;
       title := title todo;
       description := description todo;
       due_date := due_date todo;
       priority := priority todo;
       status :=
         match status todo with
         | completed => pending
         | pending | in_progress => completed
         end;
       assigned_to := assigned_to todo;
       created_at := created_at todo;
       created_by := created_by todo |} in
  toggleTodoStatus env id' todos = Some (todo', replace_todo id' todo' todos)
  /\ (status todo' = pending <-> status todo = completed)
  /\ (status todo <> completed -> status todo' = completed).
Proof.
  intros Hf Ht Hfam todo'. split; [|split].
  - unfold toggleTodoStatus. rewrite Ht.
    rewrite (updateTodo_eq env id' _ todos todo f Hf Ht Hfam).
    assert (update_row
              {| Partial.title := None; Partial.description := Undefined;
                 Partial.due_date := Undefined; Partial.priority := None;
                 Partial.status :=
                   Some (if Status_eqb (status todo) completed
                         then pending else completed);
                 Partial.assigned_to := Undefined |} todo = todo') as ->.
    { subst todo'. unfold update_row; cbn. destruct (status todo); reflexivity. }
    reflexivity.
  - subst todo'; cbn. destruct (status todo); split; congruence.
  - subst todo'; cbn. destruct (status todo); congruence.
Qed.

Lemma toggleTodoStatus_status_witness :
  exists todo',
    toggleTodoStatus (Examples.env Examples.june_10) "todo-1"
      [Examples.todo in_progress] = Some (todo', [todo'])
    /\ status todo' = completed
    /\ title todo' = title (Examples.todo in_progress)
    /\ assigned_to todo' = assigned_to (Examples.todo in_progress).
Proof.
  destruct (toggleTodoStatus_status (Examples.env Examples.june_10) "todo-1"
              [Examples.todo in_progress] (Examples.todo in_progress)
              "family"%string eq_refl eq_refl eq_refl) as (H & _ & _).
  eexists. split; [exact H|]. repeat split.
Defined.

End TodoFacts.

(* ================================================================= *)
(** * The chores of the provider: create, update, delete, complete    *)
(* ================================================================= *)

Module StoreFacts.
Import JS Runtime ChoresContext DateFacts CompletionFacts.

Lemma update_row_frame updates row :
  id (update_row updates row) = id row
  /\ family_id (update_row updates row) = family_id row
  /\ created_at (update_row updates row) = created_at row
  /\ created_by (update_row updates row) = created_by row.
Proof. repeat split. Qed.



(** [updateChore] throws exactly when no family is selected, no chore
    has the id, or the chore is of another family. *)
Lemma updateChore_throws_iff env id' updates chores :
  updateChore env id' updates chores = None
  <-> currentFamily env = None
      \/ find_chore id' chores = None
      \/ exists row f,
           find_chore id' chores = Some row /\ currentFamily env = Some f /\
           family_id row <> f.
Proof.
  unfold updateChore. split.
  - destruct (currentFamily env) as [f|]; [|auto].
    destruct (find_chore id' chores) as [row|]; [|auto].
    destruct (String.eqb_spec (family_id row) f); [discriminate|].
    intros _. right. right. exists row, f. auto.
  - intros [-> | [H | (row & f & Hrow & Hf & Hne)]]; [reflexivity | |].
    + rewrite H. destruct (currentFamily env); reflexivity.
    + rewrite Hf, Hrow. destruct (String.eqb_spec (family_id row) f); congruence.
Qed.


Lemma find_chore_filter_other id' other chores :
  other <> id' ->
  find_chore other (filter (fun chore => negb (String.eqb (id chore) id')) chores)
  = find_chore other chores.
Proof.
  unfold find_chore. intros Hne.
  induction chores as [|c chores IH]; cbn; [reflexivity|].
  destruct (String.eqb_spec (id c) id') as [E | N]; cbn.
  - destruct (String.eqb_spec (id c) other); [congruence | exact IH].
  - destruct (String.eqb (id c) other); [reflexivity | exact IH].
Qed.

Lemma find_chore_filter_same id' chores :
  find_chore id' (filter (fun chore => negb (String.eqb (id chore) id')) chores)
  = None.
Proof.
  unfold find_chore.
  induction chores as [|c chores IH]; cbn; [reflexivity|].
  destruct (String.eqb_spec (id c) id') as [E | N]; cbn; [exact IH|].
  destruct (String.eqb_spec (id c) id'); [contradiction | exact IH].
Qed.



Section LocalTime.

Variable tz : Z.

(** X2.  Without a selected family nothing is written: creating,
    updating, deleting and completing a chore all throw. *)
Theorem no_family_throws env chore updates id' chores :
  currentFamily env = None ->
  createChore tz env chore chores = None
  /\ updateChore env id' updates chores = None
  /\ deleteChore env id' chores = None
  /\ completeChore tz env id' chores = None.
Proof.
  intros H. unfold createChore, completeChore, updateChore, deleteChore.
  rewrite H. repeat split.
  - destruct (user env); reflexivity.
  - destruct (find_chore id' chores); reflexivity.
Qed.


(** The step of the recurrence in days: setting the month to the
    next one moves a date by the length of its month. *)
Lemma MakeDay_next_month y m date :
  0 <= m <= 11 ->
  MakeDay y (m + 1) date = MakeDay y m date + DaysInMonth y m.
Proof.
  intros Hm. destruct (Z.eq_dec m 11) as [-> | N].
  - unfold MakeDay, DaysInMonth.
    assert ((11 + 1) / 12 = 1) as E1 by reflexivity.
    assert ((11 + 1) mod 12 = 0) as E2 by reflexivity.
    assert (11 / 12 = 0) as E3 by reflexivity.
    assert (11 mod 12 = 11) as E4 by reflexivity.
    rewrite E1, E2, E3, E4, DayFromYear_succ, DaysInYear_leapDays, !Z.add_0_r.
    change (11 + 1) with 12.
    set (l := leapDays y). set (l' := leapDays (y + 1)).
    cbv beta iota delta [DaysBeforeMonth]. lia.
  - unfold MakeDay, DaysInMonth.
    replace (m / 12) with 0 by zdiv.
    replace (m mod 12) with m by zdiv.
    replace ((m + 1) / 12) with 0 by zdiv.
    replace ((m + 1) mod 12) with (m + 1) by zdiv.
    rewrite Z.add_0_r. lia.
Qed.

Lemma setMonth_next d :
  setMonth tz d (getMonth tz d + 1)
  = d + DaysInMonth (getFullYear tz d) (getMonth tz d) * msPerDay.
Proof.
  unfold setMonth, getMonth, getFullYear.
  set (t := LocalTime tz d).
  pose proof (MonthFromTime_table t) as [Hm _].
  rewrite MakeDay_next_month, MakeDay_fields by assumption.
  pose proof (MakeDate_Day t) as D.
  unfold MakeDate, UTC in *. subst t. unfold LocalTime in *. lia.
Qed.

Lemma period_range frequency T :
  1 <= match frequency with
       | daily => 1
       | weekly => 7
       | monthly => DaysInMonth (getFullYear tz T) (getMonth tz T)
       end <= 31.
Proof.
  destruct frequency; try lia.
  pose proof (MonthFromTime_table (LocalTime tz T)) as [Hm _].
  pose proof (DaysInMonth_range (getFullYear tz T) (getMonth tz T) Hm). lia.
Qed.

Lemma next_due_offset now frequency T :
  newDate tz (calculateNextDueDate tz now frequency (Some (ISOString T)))
  = T - msFromTime T
    + match frequency with
      | daily => 1
      | weekly => 7
      | monthly => DaysInMonth (getFullYear tz T) (getMonth tz T)
      end * msPerDay.
Proof.
  unfold calculateNextDueDate. cbv zeta.
  change (newDate tz (ISOString T)) with T.
  rewrite newDate_format.
  assert ((match frequency with
           | daily => DateFns.addDays tz T 1
           | weekly => DateFns.addDays tz T 7
           | monthly => setMonth tz T (getMonth tz T + 1)
           end)
          = T + match frequency with
                | daily => 1
                | weekly => 7
                | monthly => DaysInMonth (getFullYear tz T) (getMonth tz T)
                end * msPerDay) as ->.
  { destruct frequency; rewrite ?addDays_eq, ?setMonth_next; reflexivity. }
  rewrite RecurrenceFacts.msFromTime_shift. lia.
Qed.

Lemma next_due_later now frequency T :
  T < newDate tz (calculateNextDueDate tz now frequency (Some (ISOString T))).
Proof.
  rewrite next_due_offset.
  pose proof (period_range frequency T) as Hdays.
  unfold msFromTime, msPerSecond, msPerDay.
  pose proof (Z.mod_pos_bound T 1000). lia.
Qed.

(** X4.  The next due date as a number of days: read back, the text the
    calculator returns is the start instant cut to the second plus 1
    day (daily), 7 days (weekly) or the number of days of the month
    the start is in, 28 to 31 (monthly); it is always later than the
    start. *)
Theorem calculateNextDueDate_days now frequency T :
  let days :=
    match frequency with
    | daily => 1
    | weekly => 7
    | monthly => DaysInMonth (getFullYear tz T) (getMonth tz T)
    end in
  newDate tz (calculateNextDueDate tz now frequency (Some (ISOString T)))
    = T - msFromTime T + days * msPerDay
  /\ 1 <= days <= 31
  /\ T < newDate tz (calculateNextDueDate tz now frequency (Some (ISOString T))).
Proof.
  cbv zeta. split; [apply next_due_offset|].
  split; [apply period_range | apply next_due_later].
Qed.


(** X6.  Deleting a chore removes every chore of that id and no other:
    the id is not found any more, the other ids are found as before,
    and completing or updating the deleted chore throws. *)
Theorem deleteChore_removes env id' chores chores' updates :
  deleteChore env id' chores = Some chores' ->
  find_chore id' chores' = None
  /\ (forall other, other <> id' -> find_chore other chores' = find_chore other chores)
  /\ (forall c, In c chores' <-> In c chores /\ id c <> id')
  /\ completeChore tz env id' chores' = None
  /\ updateChore env id' updates chores' = None.
Proof.
  unfold deleteChore. destruct (currentFamily env) as [f|] eqn:Hf; [|discriminate].
  intros [= <-].
  pose proof (find_chore_filter_same id' chores) as Hnone.
  split; [exact Hnone|]. split; [|split].
  - intros other Hne. apply find_chore_filter_other. exact Hne.
  - intros c. rewrite filter_In, negb_true_iff.
    destruct (String.eqb_spec (id c) id'); split; intros [H1 H2];
      split; congruence.
  - split.
    + unfold completeChore. rewrite Hnone. reflexivity.
    + unfold updateChore. rewrite Hf, Hnone. reflexivity.
Qed.

(** X7.  A chore is listed under "Recently Completed" as soon as it is
    completed, whatever its due date. *)
Theorem completeChore_recently_completed env id' chores data chores' :
  completeChore tz env id' chores = Some (data, chores') ->
  ChoresList.group_of tz (clock env) data = ChoresList.completed.
Proof.
  intros H. apply completeChore_inv in H as (chore & _ & _ & -> & _).
  apply DueStateFacts.group_of_completed_iff.
  exists (ISOString (clock env)). split; reflexivity.
Qed.

Lemma next_due_completed now chore :
  next_due (update_row (completeChore_updates tz now chore) chore)
  = Some (calculateNextDueDate tz now (frequency chore) (Some (ISOString now))).
Proof. unfold update_row, completeChore_updates. reflexivity. Qed.

(** X8.  A chore that was just completed is not due: its next due date
    is later than the completion, and [getDueChores] leaves it out
    at that instant. *)
Theorem completeChore_not_due env id' chores data chores' :
  completeChore tz env id' chores = Some (data, chores') ->
  (exists nd, next_due data = Some nd /\ clock env < newDate tz nd)
  /\ forall c, In c (getDueChores tz (clock env) chores') -> id c <> id'.
Proof.
  intros H. apply completeChore_inv in H as (chore & Hc & _ & -> & ->).
  pose proof (next_due_later (clock env) (frequency chore) (clock env)) as Hlater.
  split.
  - exists (calculateNextDueDate tz (clock env) (frequency chore)
              (Some (ISOString (clock env)))).
    split; [apply next_due_completed | exact Hlater].
  - intros c. unfold getDueChores, replace_chore.
    rewrite filter_In, in_map_iff. intros [(c0 & <- & _) Hdue] Hid.
    destruct (String.eqb_spec (id c0) id') as [E | N]; [|contradiction].
    rewrite next_due_completed in Hdue.
    apply Z.leb_le in Hdue. lia.
Qed.


End LocalTime.

End StoreFacts.

(* ================================================================= *)
(** * Facts about Array.prototype.sort                                *)
(* ================================================================= *)

From Stdlib Require Import Permutation Sorted.

Module SortFacts.
Import JS.

Section Sort.

Context {A : Type}.
Variable compareFn : A -> A -> Z.

Lemma insert_Permutation x arr : Permutation (insert compareFn x arr) (x :: arr).
Proof.
  induction arr as [|y arr IH]; cbn; [reflexivity|].
  destruct (compareFn x y <=? 0); [reflexivity|].
  rewrite IH. apply perm_swap.
Qed.

Lemma sort_Permutation arr : Permutation (sort compareFn arr) arr.
Proof.
  induction arr as [|x arr IH]; cbn; [reflexivity|].
  rewrite insert_Permutation. constructor. exact IH.
Qed.

Lemma sort_In x arr : In x (sort compareFn arr) <-> In x arr.
Proof.
  split; apply Permutation_in;
    [apply sort_Permutation | symmetry; apply sort_Permutation].
Qed.

(** An order the comparator decides: [x] is before [y] when the
    comparator does not put [x] after [y], and [y] is before [x]
    when it does. *)
Variable R : A -> A -> Prop.
Hypothesis R_trans : forall x y z, R x y -> R y z -> R x z.
Hypothesis R_le : forall x y, compareFn x y <= 0 -> R x y.
Hypothesis R_gt : forall x y, 0 < compareFn x y -> R y x.

Lemma insert_sorted x arr :
  StronglySorted R arr -> StronglySorted R (insert compareFn x arr).
Proof.
  induction 1 as [|y arr Hs IH Hy]; cbn.
  - constructor; constructor.
  - destruct (Z.leb_spec (compareFn x y) 0) as [Hle | Hgt].
    + constructor; [constructor; assumption|].
      constructor; [apply R_le; exact Hle|].
      apply Forall_forall. intros z Hz.
      apply (R_trans x y z); [apply R_le; exact Hle|].
      rewrite Forall_forall in Hy. auto.
    + constructor; [exact IH|].
      apply Forall_forall. intros z Hz.
      apply (Permutation_in _ (insert_Permutation x arr)) in Hz.
      destruct Hz as [<- | Hz]; [apply R_gt; exact Hgt|].
      rewrite Forall_forall in Hy. auto.
Qed.

Lemma sort_sorted arr : StronglySorted R (sort compareFn arr).
Proof.
  induction arr as [|x arr IH]; cbn; [constructor|].
  apply insert_sorted. exact IH.
Qed.

End Sort.

Lemma sort_fixed {A : Type} (compareFn : A -> A -> Z) arr :
  StronglySorted (fun x y => compareFn x y <= 0) arr ->
  sort compareFn arr = arr.
Proof.
  induction 1 as [|x arr Hs IH Hx]; cbn; [reflexivity|].
  rewrite IH. destruct arr as [|y arr]; [reflexivity|]. cbn.
  inversion Hx as [|? ? Hxy _]; subst.
  destruct (Z.leb_spec (compareFn x y) 0); [reflexivity | lia].
Qed.

End SortFacts.

(* ================================================================= *)
(** * Lists split into groups                                         *)
(* ================================================================= *)

Module GroupFacts.

Section Partition.

Context {A K : Type}.
Variable key : A -> K.
Variable eqb : K -> K -> bool.
Hypothesis eqb_eq : forall a b, eqb a b = true <-> a = b.

Lemma filter_split (p : A -> bool) l :
  Permutation (filter p l ++ filter (fun x => negb (p x)) l) l.
Proof.
  induction l as [|x l IH]; cbn; [reflexivity|].
  destruct (p x); cbn.
  - constructor. exact IH.
  - symmetry. apply Permutation_cons_app. symmetry. exact IH.
Qed.

Lemma filter_filter_implies (p q : A -> bool) l :
  (forall x, q x = true -> p x = true) ->
  filter q (filter p l) = filter q l.
Proof.
  intros H. induction l as [|x l IH]; cbn; [reflexivity|].
  destruct (p x) eqn:Hp; cbn.
  - rewrite IH. reflexivity.
  - destruct (q x) eqn:Hq; [|exact IH]. apply H in Hq. congruence.
Qed.

(** Filtering a list by each key of a duplicate-free list of keys
    that holds the key of every element splits the list: every
    element is in one part, once. *)
Lemma partition_Permutation ks : forall l,
  NoDup ks ->
  (forall x, In x l -> In (key x) ks) ->
  Permutation (List.concat (map (fun k => filter (fun x => eqb (key x) k) l) ks)) l.
Proof.
  induction ks as [|k ks IH]; intros l Hnd Hin.
  - destruct l as [|x l]; [reflexivity|]. destruct (Hin x (or_introl eq_refl)).
  - inversion Hnd as [|? ? Hk Hnd']; subst. cbn [map List.concat].
    transitivity (filter (fun x => eqb (key x) k) l
                  ++ filter (fun x => negb (eqb (key x) k)) l);
      [|apply filter_split].
    apply Permutation_app_head.
    rewrite <- (IH (filter (fun x => negb (eqb (key x) k)) l) Hnd').
    + apply Permutation_refl'. f_equal. apply map_ext_in. intros k' Hk'.
      symmetry. apply filter_filter_implies. intros x Hx.
      apply eqb_eq in Hx. apply negb_true_iff.
      destruct (eqb (key x) k) eqn:E; [|reflexivity].
      apply eqb_eq in E. congruence.
    + intros x Hx. apply filter_In in Hx as [Hx Hne].
      destruct (Hin x Hx) as [E | H]; [|exact H].
      apply negb_true_iff in Hne.
      assert (eqb (key x) k = true) by (apply eqb_eq; congruence). congruence.
Qed.

End Partition.

Lemma concat_nonempty {A G : Type} (items : G -> list A) (groups : list G) :
  List.concat (map items (filter (fun g => (0 <? List.length (items g))%nat) groups))
  = List.concat (map items groups).
Proof.
  induction groups as [|g groups IH]; cbn [filter map List.concat]; [reflexivity|].
  destruct (0 <? List.length (items g))%nat eqn:E; cbn [map List.concat].
  - rewrite IH. reflexivity.
  - rewrite IH. destruct (items g); [reflexivity | discriminate].
Qed.

End GroupFacts.

(* ================================================================= *)
(** * The chore list: filters, order and groups                       *)
(* ================================================================= *)

Module ChoreListFacts.
Import JS ChoresContext ChoresList DateFacts.

Lemma GroupKey_eqb_eq a b : GroupKey_eqb a b = true <-> a = b.
Proof. destruct a, b; cbn; split; congruence. Qed.

Lemma group_label_inj a b : group_label a = group_label b -> a = b.
Proof. destruct a, b; cbn; congruence. Qed.

Section LocalTime.

Variable tz : Z.

(** X10.  The groups of the chore list split the sorted chores: every
    chore is in one group, once, under the heading of its due state;
    no group is empty and no heading comes twice. *)
Theorem groupChoresByStatus_partition now sortedChores :
  Permutation (List.concat (map chores (groupChoresByStatus tz now sortedChores)))
              sortedChores
  /\ (forall group, In group (groupChoresByStatus tz now sortedChores) ->
        chores group <> []
        /\ forall chore, In chore (chores group) ->
             label group = group_label (group_of tz now chore))
  /\ NoDup (map label (groupChoresByStatus tz now sortedChores)).
Proof.
  split; [|split].
  - unfold groupChoresByStatus.
    rewrite (GroupFacts.concat_nonempty chores), map_map. cbn [chores].
    apply (GroupFacts.partition_Permutation (group_of tz now) GroupKey_eqb
             GroupKey_eqb_eq).
    + repeat constructor; cbn; intuition discriminate.
    + intros x _. destruct (group_of tz now x); cbn; tauto.
  - intros group Hg. split.
    + unfold groupChoresByStatus in Hg. apply filter_In in Hg as [_ Hlen].
      destruct (chores group); [discriminate | discriminate].
    + intros chore Hc.
      apply (DueStateFacts.groupChoresByStatus_In tz now sortedChores group chore Hg Hc).
  - unfold groupChoresByStatus.
    set (gs := map _ [overdue; dueToday; upcoming; completed]).
    assert (NoDup (map label gs)) as Hnd.
    { subst gs. rewrite map_map. cbn.
      repeat constructor; cbn; intuition discriminate. }
    clearbody gs.
    induction gs as [|g gs IH]; cbn [filter map]; [constructor|].
    inversion Hnd as [|? ? Hg Hnd']; subst.
    destruct (0 <? List.length (chores g))%nat; [|auto].
    cbn [map]. constructor; [|auto].
    intros Hin. apply Hg. apply in_map_iff in Hin as (g' & E & Hin).
    apply in_map_iff. exists g'. split; [exact E|].
    apply filter_In in Hin. tauto.
Qed.

Variable localeCompare : string -> string -> Z.

Lemma sortedChores_In filter user_id now chores0 chore :
  In chore (sortedChores tz localeCompare filter user_id now chores0)
  <-> In chore (filteredChores tz filter user_id now chores0).
Proof. unfold sortedChores. apply SortFacts.sort_In. Qed.

Lemma group_has_chore now sortedChores group :
  In group (groupChoresByStatus tz now sortedChores) ->
  exists chore,
    In chore sortedChores /\ label group = group_label (group_of tz now chore).
Proof.
  intros Hg.
  assert (chores group <> []) as Hne.
  { unfold groupChoresByStatus in Hg. apply filter_In in Hg as [_ Hlen].
    destruct (chores group); discriminate. }
  destruct (chores group) as [|chore rest] eqn:E; [congruence|].
  exists chore.
  destruct (DueStateFacts.groupChoresByStatus_In tz now sortedChores group chore Hg)
    as [Hin Hl]; [rewrite E; left; reflexivity|].
  split; assumption.
Qed.

(** X11.  Under the "Due" tab (the tab the list opens with) no chore is
    listed under "Upcoming": a chore whose due date has come is
    overdue, due today, or recently completed. *)
Theorem due_tab_groups user_id now chores0 group :
  In group (groupedChores tz localeCompare Filter.due user_id now chores0) ->
  label group <> "Upcoming"%string.
Proof.
  intros Hg. unfold groupedChores in Hg.
  apply group_has_chore in Hg as (chore & Hin & ->).
  apply sortedChores_In in Hin. cbn [filteredChores] in Hin.
  unfold getDueChores in Hin. apply filter_In in Hin as [_ Hdue].
  rewrite DueStateFacts.group_of_eq.
  destruct (match last_completed chore with
            | Some lc => Spec.sunday_week tz (newDate tz lc) =? Spec.sunday_week tz now
            | None => false
            end); [discriminate|].
  destruct (next_due chore) as [nd|]; [|discriminate].
  apply Z.leb_le in Hdue. cbv zeta.
  destruct (Z.ltb_spec (newDate tz nd) now) as [Hlt | Hge];
    destruct (Spec.same_calendar_day tz (newDate tz nd) now) eqn:Hsame;
    cbn [andb negb]; try discriminate.
  assert (newDate tz nd = now) as E by lia.
  rewrite E in Hsame. unfold Spec.same_calendar_day in Hsame.
  rewrite Z.eqb_refl in Hsame. discriminate.
Qed.

(** X12.  Under the "Completed" tab every chore is under "Recently
    Completed": the tab and the group use the same test. *)
Theorem completed_tab_groups user_id now chores0 group :
  In group (groupedChores tz localeCompare Filter.completed user_id now chores0) ->
  label group = "Recently Completed"%string.
Proof.
  intros Hg. unfold groupedChores in Hg.
  apply group_has_chore in Hg as (chore & Hin & ->).
  apply sortedChores_In in Hin. cbn [filteredChores] in Hin.
  apply filter_In in Hin as [_ Hweek].
  unfold group_of. destruct (last_completed chore); [|discriminate].
  rewrite Hweek. reflexivity.
Qed.

Lemma chore_class_range now chore : 0 <= Order.chore_class tz now chore <= 2.
Proof.
  unfold Order.chore_class. destruct (next_due chore); [|lia].
  destruct (_ && _); lia.
Qed.

Lemma chore_before_trans now a b c :
  Order.chore_before tz now a b -> Order.chore_before tz now b c ->
  Order.chore_before tz now a c.
Proof.
  unfold Order.chore_before, Order.chore_class.
  destruct (next_due a) as [da|], (next_due b) as [db|], (next_due c) as [dc|];
    repeat match goal with
           | |- context [if ?x then _ else _] => destruct x
           end; lia.
Qed.

Lemma compareChores_before now a b :
  (compareChores tz localeCompare now a b <= 0 -> Order.chore_before tz now a b)
  /\ (0 < compareChores tz localeCompare now a b -> Order.chore_before tz now b a).
Proof.
  unfold compareChores, Order.chore_before, Order.chore_class, DateFns.isPast.
  destruct (next_due a) as [da|], (next_due b) as [db|]; cbv zeta;
    rewrite ?DueStateFacts.isToday_same_calendar_day;
    repeat match goal with
           | |- context [if ?x then _ else _] => destruct x eqn:?
           end; cbn [andb negb] in *; try discriminate; split; lia.
Qed.

(** X13.  The chore list is sorted: the chores under the tab, all of
    them and each once, the overdue ones first by due date, then the
    others with a due date by due date, then the ones without due
    date. *)
Theorem sortedChores_order filter user_id now chores0 :
  StronglySorted (Order.chore_before tz now)
    (sortedChores tz localeCompare filter user_id now chores0)
  /\ Permutation (sortedChores tz localeCompare filter user_id now chores0)
                 (filteredChores tz filter user_id now chores0)
  /\ forall chore,
       In chore (sortedChores tz localeCompare filter user_id now chores0) ->
       In chore chores0.
Proof.
  split; [|split].
  - unfold sortedChores. apply SortFacts.sort_sorted.
    + intros x y z. apply chore_before_trans.
    + intros x y. apply compareChores_before.
    + intros x y. apply compareChores_before.
  - apply SortFacts.sort_Permutation.
  - intros chore Hin. apply sortedChores_In in Hin.
    destruct filter; cbn [filteredChores] in Hin; trivial;
      unfold getDueChores in Hin; apply filter_In in Hin; tauto.
Qed.

Lemma MMM_cases m :
  In (DateFns.MMM m)
     ["Jan"; "Feb"; "Mar"; "Apr"; "May"; "Jun";
      "Jul"; "Aug"; "Sep"; "Oct"; "Nov"; "Dec"]%string.
Proof.
  unfold DateFns.MMM.
  repeat match goal with
         | |- context [match ?x with _ => _ end] => destruct x
         end; cbn; tauto.
Qed.

(** A date text [MMM d] is none of the fixed labels. *)
Lemma format_MMM_d_shape date :
  DateFns.format_MMM_d tz date <> "Today"%string
  /\ DateFns.format_MMM_d tz date <> "No due date"%string
  /\ String.prefix "Overdue: " (DateFns.format_MMM_d tz date) = false.
Proof.
  unfold DateFns.format_MMM_d.
  pose proof (MMM_cases (getMonth tz date)) as H.
  set (d := decimal (getDate tz date)). clearbody d.
  cbn in H.
  repeat (destruct H as [<- | H]; [cbn; repeat split; discriminate|]).
  contradiction.
Qed.

(** X14.  The due label of a chore row agrees with the group it is under:
    for a chore outside "Recently Completed", the label is "Today"
    exactly under "Due Today", starts with "Overdue: " exactly under
    "Overdue", and is "No due date" exactly without due date. *)
Theorem formatDueDate_agrees now chore :
  group_of tz now chore <> completed ->
  (formatDueDate tz now (next_due chore) = "Today"%string
     <-> group_of tz now chore = dueToday)
  /\ (String.prefix "Overdue: " (formatDueDate tz now (next_due chore)) = true
     <-> group_of tz now chore = overdue)
  /\ (formatDueDate tz now (next_due chore) = "No due date"%string
     <-> next_due chore = None).
Proof.
  intros Hnot. unfold group_of in *. unfold formatDueDate.
  destruct (match last_completed chore with
            | Some lc => DateFns.isThisWeek tz now (newDate tz lc) None
            | None => false
            end); [congruence|].
  destruct (next_due chore) as [nd|].
  - cbv zeta. destruct (format_MMM_d_shape (newDate tz nd)) as (H1 & H2 & H3).
    set (text := DateFns.format_MMM_d tz (newDate tz nd)) in *. clearbody text.
    destruct (DateFns.isToday tz now (newDate tz nd));
      destruct (DateFns.isPast now (newDate tz nd)); cbn [andb negb].
    + repeat split; intros; try discriminate; trivial.
    + repeat split; intros; try discriminate; trivial.
    + repeat split; intros; cbn in *; try discriminate; trivial.
      destruct text; reflexivity.
    + rewrite H3. repeat split; intros; try discriminate; congruence.
  - repeat split; intros; cbn in *; try discriminate; trivial.
Qed.

End LocalTime.

End ChoreListFacts.

(* ================================================================= *)
(** * The chore form: members and valid submissions                   *)
(* ================================================================= *)

Module FormMoreFacts.
Import JS Runtime ChoresForm.

Lemma existsb_eqb_In u l : existsb (String.eqb u) l = true <-> In u l.
Proof.
  rewrite existsb_exists. split.
  - intros (x & Hin & E). apply String.eqb_eq in E. congruence.
  - intros H. exists u. split; [exact H | apply String.eqb_refl].
Qed.

(** X15.  Selecting or unselecting a member changes the membership of
    that member only, keeps the list free of duplicates, and touches
    no other field of the form; selecting a new member and
    unselecting it again gives the list back. *)
Theorem toggleRotationMember_flips s userId :
  let s' := toggleRotationMember s userId in
  (In userId (rotationMembers s') <-> ~ In userId (rotationMembers s))
  /\ (forall other, other <> userId ->
        (In other (rotationMembers s') <-> In other (rotationMembers s)))
  /\ (NoDup (rotationMembers s) -> NoDup (rotationMembers s'))
  /\ (~ In userId (rotationMembers s) ->
      rotationMembers (toggleRotationMember s' userId) = rotationMembers s)
  /\ (title s', description s', frequency s', rotation s', assignedTo s',
      isSubmitting s', errors s')
     = (title s, description s, frequency s, rotation s, assignedTo s,
        isSubmitting s, errors s).
Proof.
  cbv zeta. unfold toggleRotationMember; cbn [rotationMembers title description
    frequency rotation assignedTo isSubmitting errors].
  set (prev := rotationMembers s).
  assert (forall l, ~ In userId l ->
            filter (fun id => negb (String.eqb id userId)) l = l) as Hkeep.
  { induction l as [|x l IH]; cbn; [reflexivity|]. intros Hn.
    destruct (String.eqb_spec x userId) as [E | N]; cbn.
    - exfalso. apply Hn. left. exact E.
    - f_equal. apply IH. tauto. }
  destruct (existsb (String.eqb userId) prev) eqn:E.
  - apply existsb_eqb_In in E.
    split; [|split; [|split; [|split]]].
    + rewrite filter_In, String.eqb_refl. cbn. split; [intros [_ F]; discriminate | tauto].
    + intros other Hne. rewrite filter_In.
      destruct (String.eqb_spec other userId); [contradiction|]. cbn. tauto.
    + apply NoDup_filter.
    + tauto.
    + reflexivity.
  - assert (~ In userId prev) as Hn.
    { intros F. apply existsb_eqb_In in F. congruence. }
    split; [|split; [|split; [|split]]].
    + rewrite in_app_iff. cbn. tauto.
    + intros other Hne. rewrite in_app_iff. cbn. split; [|tauto].
      intros [F | [F | []]]; [exact F | congruence].
    + intros Hnd. apply NoDup_app; [exact Hnd | repeat constructor; intros [] |].
      intros x Hx [<- | []]. contradiction.
    + intros _.
      assert (existsb (String.eqb userId) (prev ++ [userId]) = true) as ->.
      { apply existsb_eqb_In. apply in_or_app. right. left. reflexivity. }
      rewrite filter_app, Hkeep by exact Hn. cbn.
      rewrite String.eqb_refl. cbn. apply app_nil_r.
    + reflexivity.
Qed.

Lemma validateForm_no_errors s :
  snd (validateForm s) = true -> fst (validateForm s) = Errors.empty.
Proof.
  unfold validateForm; cbn [fst snd Errors.keys_length Errors.title
    Errors.rotation Errors.submit].
  destruct (negb (truthy (trim (title s)))); cbn [Errors.count];
    destruct (rotation s && _)%bool; cbn; intros H;
    try discriminate; reflexivity.
Qed.

Lemma handleSubmit_valid tz env props s chores0 :
  snd (validateForm s) = true ->
  handleSubmit tz env props s chores0
  = let s1 := setErrors s Errors.empty in
    match
      match initialData_id props with
      | Some id => if isEditing props && truthy id then Some id else None
      | None => None
      end
    with
    | Some id =>
        let updates := ChoresContext.Partial.ofChoreData (choreData s1) in
        match ChoresContext.updateChore env id updates chores0 with
        | Some (_, chores1) =>
            {| state := setIsSubmitting s1 false; chores := chores1;
               invoked := [call_updateChore id updates]; closed := true |}
        | None =>
            {| state := failed s1; chores := chores0;
               invoked := [call_updateChore id updates]; closed := false |}
        end
    | None =>
        match ChoresContext.createChore tz env (choreData s1) chores0 with
        | Some (_, chores1) =>
            {| state := setIsSubmitting s1 false; chores := chores1;
               invoked := [call_createChore (choreData s1)]; closed := true |}
        | None =>
            {| state := failed s1; chores := chores0;
               invoked := [call_createChore (choreData s1)]; closed := false |}
        end
    end.
Proof.
  intros Hv. pose proof (validateForm_no_errors s Hv) as He.
  unfold handleSubmit. destruct (validateForm s) as [newErrors valid].
  cbn [fst snd] in *. subst. reflexivity.
Qed.

(** X16.  A valid submission of a new chore makes one call on the
    context.  With a user and a family it appends one chore with the
    fields of the form and closes the form without errors; without,
    the chores are unchanged, the form stays open with its fields,
    and the error "Failed to save chore" is set. *)
Theorem handleSubmit_create tz env props s chores0 :
  snd (validateForm s) = true ->
  isEditing props = false \/ initialData_id props = None ->
  let out := handleSubmit tz env props s chores0 in
  invoked out = [call_createChore (choreData s)]
  /\ isSubmitting (state out) = false
  /\ (title (state out), description (state out), frequency (state out),
      rotation (state out), assignedTo (state out), rotationMembers (state out))
     = (title s, description s, frequency s, rotation s, assignedTo s,
        rotationMembers s)
  /\ match user env, currentFamily env with
     | Some u, Some f =>
         closed out = true
         /\ errors (state out) = Errors.empty
         /\ exists chore,
              chores out = chores0 ++ [chore]
              /\ ChoresContext.title chore = title s
              /\ ChoresContext.frequency chore = frequency s
              /\ ChoresContext.rotation chore = rotation s
              /\ ChoresContext.family_id chore = f
              /\ ChoresContext.created_by chore = u
     | _, _ =>
         closed out = false
         /\ chores out = chores0
         /\ Errors.submit (errors (state out)) = Some "Failed to save chore"%string
     end.
Proof.
  intros Hv Hnew out. subst out. rewrite handleSubmit_valid by exact Hv.
  assert (match initialData_id props with
          | Some id => if isEditing props && truthy id then Some id else None
          | None => None
          end = None) as ->.
  { destruct Hnew as [-> | ->]; [|reflexivity].
    destruct (initialData_id props); reflexivity. }
  cbv zeta. unfold ChoresContext.createChore.
  destruct (user env) as [u|]; [destruct (currentFamily env) as [f|]|].
  - cbn. repeat split. eexists. repeat split.
  - cbn. repeat split.
  - cbn. repeat split.
Qed.

(** X17.  A valid submission that edits a chore writes the fields of the
    form and nothing else: the due date and the last completion of
    the chore are kept (also when the frequency changes), and the
    rotation starts over, at index 0 and without assignee. *)
Theorem handleSubmit_edit tz env props s chores0 id' row f :
  snd (validateForm s) = true ->
  isEditing props = true ->
  initialData_id props = Some id' ->
  truthy id' = true ->
  currentFamily env = Some f ->
  ChoresContext.find_chore id' chores0 = Some row ->
  ChoresContext.family_id row = f ->
  let data :=
    {| ChoresContext.id := ChoresContext.id row;
       ChoresContext.family_id := ChoresContext.family_id row;
       ChoresContext.title := title s;
       ChoresContext.description :=
         if truthy (description s) then Some (description s) else None;
       ChoresContext.frequency := frequency s;
       ChoresContext.assigned_to := if rotation s then None else assignedTo s;
       ChoresContext.rotation := rotation s;
       ChoresContext.rotation_members :=
         if rotation s then Some (rotationMembers s) else None;
       ChoresContext.current_assignee_index := if rotation s then Some 0 else None;
       ChoresContext.created_at := ChoresContext.created_at row;
       ChoresContext.created_by := ChoresContext.created_by row;
       ChoresContext.next_due := ChoresContext.next_due row;
       ChoresContext.last_completed := ChoresContext.last_completed row |} in
  let out := handleSubmit tz env props s chores0 in
  chores out = ChoresContext.replace_chore id' data chores0
  /\ closed out = true
  /\ errors (state out) = Errors.empty
  /\ exists updates, invoked out = [call_updateChore id' updates].
Proof.
  intros Hv He Hid Ht Hf Hrow Hfam data out. subst out.
  rewrite handleSubmit_valid by exact Hv.
  rewrite Hid, He, Ht. cbn [andb]. cbv zeta.
  rewrite (CompletionFacts.updateChore_eq env id' _ chores0 row f Hf Hrow Hfam).
  cbn [chores closed state invoked errors setIsSubmitting setErrors].
  assert (ChoresContext.update_row
            (ChoresContext.Partial.ofChoreData (choreData (setErrors s Errors.empty)))
            row = data) as ->.
  { subst data. unfold ChoresContext.update_row, ChoresContext.Partial.ofChoreData,
      choreData; cbn.
    destruct (truthy (description s)), (rotation s); try reflexivity;
      destruct (assignedTo s); reflexivity. }
  repeat split. eexists. reflexivity.
Qed.

End FormMoreFacts.

(* ================================================================= *)
(** * To-dos: the provider and the list                               *)
(* ================================================================= *)

Module TodoListFacts.
Import JS Runtime TodosContext TodosList DateFacts.

Lemma find_todo_id id' todos0 todo :
  find_todo id' todos0 = Some todo -> id todo = id'.
Proof.
  unfold find_todo. intros H. apply find_some in H as [_ H].
  apply String.eqb_eq. exact H.
Qed.

Lemma find_todo_replace id' data todos0 row :
  find_todo id' todos0 = Some row ->
  id data = id' ->
  find_todo id' (replace_todo id' data todos0) = Some data.
Proof.
  unfold find_todo, replace_todo. intros H Hid.
  induction todos0 as [|c todos0 IH]; cbn in *; [discriminate|].
  destruct (String.eqb_spec (id c) id') as [E | N].
  - rewrite Hid, String.eqb_refl. reflexivity.
  - destruct (String.eqb_spec (id c) id'); [contradiction|]. auto.
Qed.

Lemma replace_todo_twice id' a b todos0 :
  id a = id' ->
  replace_todo id' b (replace_todo id' a todos0) = replace_todo id' b todos0.
Proof.
  intros Ha. unfold replace_todo. rewrite map_map. apply map_ext. intros c.
  destruct (String.eqb_spec (id c) id') as [E | N].
  - rewrite Ha, String.eqb_refl. reflexivity.
  - destruct (String.eqb_spec (id c) id'); [contradiction | reflexivity].
Qed.

Lemma toggleTodoStatus_eq env id' todos0 todo f :
  currentFamily env = Some f ->
  find_todo id' todos0 = Some todo ->
  family_id todo = f ->
  toggleTodoStatus env id' todos0
  = let todo' :=
      {| id := id todo; family_id := family_id todo; title := title todo;
         description := description todo; due_date := due_date todo;
         priority := priority todo;
         status := if Status_eqb (status todo) completed then pending else completed;
         assigned_to := assigned_to todo; created_at := created_at todo;
         created_by := created_by todo |} in
    Some (todo', replace_todo id' todo' todos0).
Proof.
  intros Hf Ht Hfam. unfold toggleTodoStatus. rewrite Ht.
  rewrite (TodoFacts.updateTodo_eq env id' _ todos0 todo f Hf Ht Hfam).
  reflexivity.
Qed.

(** X18.  Toggling twice gives the to-do back, and the list with it,
    unless the to-do was in progress: that one ends as pending. *)
Theorem toggleTodoStatus_twice env id' todos0 todo f :
  currentFamily env = Some f ->
  find_todo id' todos0 = Some todo ->
  family_id todo = f ->
  exists todo1 todos1 todo2,
    toggleTodoStatus env id' todos0 = Some (todo1, todos1)
    /\ toggleTodoStatus env id' todos1 = Some (todo2, replace_todo id' todo2 todos0)
    /\ status todo2
       = match status todo with
         | in_progress => pending
         | s => s
         end
    /\ (status todo <> in_progress -> todo2 = todo).
Proof.
  intros Hf Ht Hfam.
  pose proof (find_todo_id _ _ _ Ht) as Hid.
  eexists. eexists. eexists.
  split; [apply (toggleTodoStatus_eq env id' todos0 todo f Hf Ht Hfam)|].
  cbv zeta. split; [|split].
  - erewrite toggleTodoStatus_eq;
      [| exact Hf
       | apply (find_todo_replace id' _ todos0 todo Ht); exact Hid
       | exact Hfam].
    cbv zeta. cbn [id family_id title description due_date priority status
      assigned_to created_at created_by].
    rewrite replace_todo_twice by exact Hid. reflexivity.
  - cbn. destruct (status todo); reflexivity.
  - intros Hs. destruct todo as [? ? ? ? ? ? st ? ? ?]; cbn in *.
    destruct st; try reflexivity. congruence.
Qed.

Section LocalTime.

Variable tz : Z.

(** X19.  The status criterion splits what the other criteria keep:
    ['active'] keeps the to-dos that are not completed,
    ['completed'] the others, and each to-do is in one of the two. *)
Theorem filterTodos_active_completed now assignedTo priority dueSoon todos0 :
  let criteria s :=
    {| Criteria.assignedTo := assignedTo; Criteria.status := s;
       Criteria.priority := priority; Criteria.dueSoon := dueSoon |} in
  filterTodos tz now (criteria (Some Criteria.active)) todos0
    = filter (fun todo => negb (Status_eqb (status todo) completed))
             (filterTodos tz now (criteria None) todos0)
  /\ filterTodos tz now (criteria (Some Criteria.completed)) todos0
    = filter (fun todo => Status_eqb (status todo) completed)
             (filterTodos tz now (criteria None) todos0)
  /\ Permutation
       (filterTodos tz now (criteria (Some Criteria.active)) todos0
        ++ filterTodos tz now (criteria (Some Criteria.completed)) todos0)
       (filterTodos tz now (criteria None) todos0).
Proof.
  cbv zeta.
  assert (forall s test,
            (forall todo,
               match s with
               | Some Criteria.active => Status_eqb (status todo) completed
               | Some c => status_differs (status todo) c
               | None => false
               end = negb (test todo)) ->
            filterTodos tz now
              {| Criteria.assignedTo := assignedTo; Criteria.status := s;
                 Criteria.priority := priority; Criteria.dueSoon := dueSoon |} todos0
            = filter test
                (filterTodos tz now
                   {| Criteria.assignedTo := assignedTo; Criteria.status := None;
                      Criteria.priority := priority; Criteria.dueSoon := dueSoon |}
                   todos0)) as H.
  { intros s test Hs. unfold filterTodos; cbn [Criteria.assignedTo Criteria.status
      Criteria.priority Criteria.dueSoon].
    transitivity
      (filter (fun todo =>
                 (if match assignedTo with
                     | Undefined => false
                     | Null => negb (option_string_eqb (assigned_to todo) None)
                     | Just a => negb (option_string_eqb (assigned_to todo) (Some a))
                     end
                  then false
                  else if false then false
                  else if match priority with
                          | Some p => negb (Priority_eqb (TodosContext.priority todo) p)
                          | None => false
                          end
                  then false
                  else if match dueSoon, due_date todo with
                          | Some true, Some d => 48 * msPerHour <? newDate tz d - now
                          | _, _ => false
                          end
                  then false
                  else true) && test todo)
              todos0).
    - apply filter_ext. intros todo. rewrite Hs.
      destruct (test todo); cbn [negb];
        repeat match goal with
               | |- context [if ?b then _ else _] => destruct b
               end; reflexivity.
    - clear Hs. induction todos0 as [|todo todos0 IH]; cbn [filter]; [reflexivity|].
      rewrite IH.
      repeat match goal with
             | |- context [if ?b then _ else _] => destruct b eqn:?
             end; cbn [andb filter] in *; try congruence;
        repeat match goal with
               | H : ?x = _ |- context [?x] => rewrite H
               end; try reflexivity. }
  split; [|split].
  - apply H. intros todo. rewrite negb_involutive. reflexivity.
  - apply H. intros todo. destruct (status todo); reflexivity.
  - rewrite (H (Some Criteria.active)
               (fun todo => negb (Status_eqb (status todo) completed)))
      by (intros todo; rewrite negb_involutive; reflexivity).
    rewrite (H (Some Criteria.completed)
               (fun todo => Status_eqb (status todo) completed))
      by (intros todo; destruct (status todo); reflexivity).
    rewrite Permutation_app_comm.
    apply (GroupFacts.filter_split (fun todo => Status_eqb (status todo) completed)).
Qed.

Lemma option_string_eqb_eq a b : option_string_eqb a b = true <-> a = b.
Proof.
  destruct a, b; cbn; try (split; congruence).
  rewrite String.eqb_eq. split; congruence.
Qed.

(** X20.  What the tabs of the to-do list show: "All" everything;
    "Pending" the to-dos whose status is pending (not those in
    progress); "Completed" the completed ones; "Mine" the to-dos
    assigned to the user, and the unassigned ones when no user is
    signed in. *)
Theorem filteredTodos_tabs filter user_id now todos0 todo :
  In todo (filteredTodos tz filter user_id now todos0)
  <-> In todo todos0
      /\ match filter with
         | Filter.all => True
         | Filter.pending => status todo = pending
         | Filter.completed => status todo = completed
         | Filter.mine =>
             assigned_to todo
             = match user_id with
               | Some u => if truthy u then Some u else None
               | None => None
               end
         end.
Proof.
  unfold filteredTodos, filterTodos; cbn [Criteria.assignedTo Criteria.status
    Criteria.priority Criteria.dueSoon].
  rewrite filter_In.
  destruct filter.
  - tauto.
  - destruct user_id as [u|]; [destruct (truthy u)|];
      split; intros [Hin H]; split; trivial.
    + destruct (option_string_eqb (assigned_to todo) (Some u)) eqn:E;
        [apply option_string_eqb_eq; exact E | discriminate].
    + apply option_string_eqb_eq in H. rewrite H. reflexivity.
    + destruct (option_string_eqb (assigned_to todo) None) eqn:E;
        [apply option_string_eqb_eq; exact E | discriminate].
    + apply option_string_eqb_eq in H. rewrite H. reflexivity.
    + destruct (option_string_eqb (assigned_to todo) None) eqn:E;
        [apply option_string_eqb_eq; exact E | discriminate].
    + apply option_string_eqb_eq in H. rewrite H. reflexivity.
  - destruct (status todo); cbn; split; intros [Hin H]; split; trivial;
      discriminate.
  - destruct (status todo); cbn; split; intros [Hin H]; split; trivial;
      discriminate.
Qed.

Lemma todo_before_trans a b c :
  Order.todo_before tz a b -> Order.todo_before tz b c -> Order.todo_before tz a c.
Proof.
  unfold Order.todo_before, Order.todo_key.
  destruct (status a), (status b), (status c);
    destruct (due_date a), (due_date b), (due_date c); lia.
Qed.

Lemma compareTodos_before a b :
  (compareTodos tz a b <= 0 -> Order.todo_before tz a b)
  /\ (0 < compareTodos tz a b -> Order.todo_before tz b a).
Proof.
  unfold compareTodos, Order.todo_before, Order.todo_key.
  destruct (status a), (status b); cbn [Status_eqb andb negb];
    destruct (due_date a), (due_date b); split; lia.
Qed.

(** X21.  The to-do list is sorted: the to-dos under the tab, all of them
    and each once; the open ones before the completed ones, then the
    ones with a due date by due date before the ones without, which
    go by priority, high first. *)
Theorem sortedTodos_order filter user_id now todos0 :
  StronglySorted (Order.todo_before tz) (sortedTodos tz filter user_id now todos0)
  /\ Permutation (sortedTodos tz filter user_id now todos0)
                 (filteredTodos tz filter user_id now todos0).
Proof.
  split.
  - unfold sortedTodos. apply SortFacts.sort_sorted.
    + intros x y z. apply todo_before_trans.
    + intros x y. apply compareTodos_before.
    + intros x y. apply compareTodos_before.
  - apply SortFacts.sort_Permutation.
Qed.

Lemma Day_LocalTime_shift t n :
  Day (LocalTime tz (t + n * msPerDay)) = Day (LocalTime tz t) + n.
Proof.
  replace (LocalTime tz (t + n * msPerDay)) with (LocalTime tz t + n * msPerDay)
    by (unfold LocalTime; lia).
  apply Day_shift.
Qed.

Lemma Day_LocalTime_mono a b :
  a <= b -> Day (LocalTime tz a) <= Day (LocalTime tz b).
Proof.
  intros H. unfold Day, LocalTime, msPerDay. apply Z.div_le_mono; lia.
Qed.

Lemma isTomorrow_eq now date :
  DateFns.isTomorrow tz now date
  = (Day (LocalTime tz date) =? Day (LocalTime tz now) + 1).
Proof.
  apply Bool.eq_true_iff_eq. unfold DateFns.isTomorrow.
  rewrite isSameDay_iff, addDays_eq, Day_LocalTime_shift, Z.eqb_eq. reflexivity.
Qed.

Lemma isToday_eq now date :
  DateFns.isToday tz now date
  = (Day (LocalTime tz date) =? Day (LocalTime tz now)).
Proof. apply DueStateFacts.isToday_same_calendar_day. Qed.

(** X22.  The group of a to-do with a due date, by the calendar day of
    the due date: an earlier day than today is "Overdue", but "This
    Week" once the to-do is completed; today is "Today"; the day
    after is "Tomorrow"; a later day is "This Week" when the due
    date is less than seven days from now, and "Later" otherwise. *)
Theorem group_of_days now todo d :
  due_date todo = Some d ->
  let due := newDate tz d in
  let day x := Day (LocalTime tz x) in
  (day due < day now ->
     group_of tz now todo
     = if Status_eqb (status todo) completed then thisWeek else overdue)
  /\ (day due = day now -> group_of tz now todo = today)
  /\ (day due = day now + 1 -> group_of tz now todo = tomorrow)
  /\ (day now + 1 < day due ->
      group_of tz now todo
      = if due <? now + 7 * msPerDay then thisWeek else later).
Proof.
  intros Hd due day. unfold group_of. rewrite Hd. cbv zeta. fold due.
  rewrite setDate_getDate, isToday_eq, isTomorrow_eq. unfold DateFns.isBefore.
  fold (day due) (day now).
  pose proof (Day_LocalTime_mono now due) as M1.
  pose proof (Day_LocalTime_mono due now) as M2.
  fold (day due) (day now) in M1, M2.
  repeat split; intros H.
  - destruct (Z.ltb_spec due now); [|lia].
    destruct (Z.eqb_spec (day due) (day now)); [lia|].
    destruct (Status_eqb (status todo) completed); cbn [andb negb]; [|reflexivity].
    destruct (Z.eqb_spec (day due) (day now + 1)); [lia|].
    destruct (Z.ltb_spec due (now + 7 * msPerDay)); [reflexivity|].
    unfold msPerDay in *. lia.
  - rewrite H, Z.eqb_refl, andb_false_r. reflexivity.
  - destruct (Z.eqb_spec (day due) (day now)); [lia|].
    destruct (Z.ltb_spec due now); [lia|]. cbn [andb negb].
    rewrite H, Z.eqb_refl. reflexivity.
  - destruct (Z.eqb_spec (day due) (day now)); [lia|].
    destruct (Z.ltb_spec due now); [lia|]. cbn [andb negb].
    destruct (Z.eqb_spec (day due) (day now + 1)); [lia|]. reflexivity.
Qed.

Lemma TodoGroupKey_eqb_eq a b : GroupKey_eqb a b = true <-> a = b.
Proof. destruct a, b; cbn; split; congruence. Qed.

(** X23.  The groups of the to-do list split the sorted to-dos: every
    to-do is in one group, once, under the heading of its group; no
    group is empty; the to-dos without due date, and only they, are
    under "No Due Date"; a completed to-do is never under
    "Overdue". *)
Theorem groupTodosByDueDate_partition now sortedTodos0 :
  Permutation (List.concat (map todos (groupTodosByDueDate tz now sortedTodos0)))
              sortedTodos0
  /\ (forall group, In group (groupTodosByDueDate tz now sortedTodos0) ->
        todos group <> []
        /\ forall todo, In todo (todos group) ->
             In todo sortedTodos0
             /\ label group = group_label (group_of tz now todo))
  /\ (forall todo, group_of tz now todo = noDueDate <-> due_date todo = None)
  /\ (forall todo, status todo = completed -> group_of tz now todo <> overdue).
Proof.
  split; [|split; [|split]].
  - unfold groupTodosByDueDate.
    rewrite (GroupFacts.concat_nonempty todos), map_map. cbn [todos].
    apply (GroupFacts.partition_Permutation (group_of tz now) GroupKey_eqb
             TodoGroupKey_eqb_eq).
    + repeat constructor; cbn; intuition discriminate.
    + intros x _. destruct (group_of tz now x); cbn; tauto.
  - intros group Hg. unfold groupTodosByDueDate in Hg.
    apply filter_In in Hg as [Hg Hlen]. split.
    + destruct (todos group); [discriminate | discriminate].
    + apply in_map_iff in Hg as (k & <- & _). cbn [todos label].
      intros todo Hin. apply filter_In in Hin as [Hin Hk].
      apply TodoGroupKey_eqb_eq in Hk. subst k. auto.
  - intros todo. unfold group_of. destruct (due_date todo); [|tauto].
    cbv zeta. split; [|discriminate].
    repeat match goal with
           | |- context [if ?b then _ else _] => destruct b
           end; discriminate.
  - intros todo Hs. unfold group_of. destruct (due_date todo); [|discriminate].
    cbv zeta. rewrite Hs. cbn [Status_eqb negb]. rewrite andb_false_r.
    repeat match goal with
           | |- context [if ?b then _ else _] => destruct b
           end; discriminate.
Qed.

End LocalTime.

End TodoListFacts.

(* ================================================================= *)
(** * The events of a day and the upcoming days                       *)
(* ================================================================= *)

Module CalendarFacts.
Import JS CalendarContext UpcomingEvents DateFacts.


(** X27.  Toggling the selection of a calendar flips that calendar and
    no other; toggling twice gives the calendars back, except that a
    calendar that had no [selected] key has it then, as [false]. *)
Theorem toggleCalendarSelection_twice calendarId prev :
  let once := toggleCalendarSelection calendarId prev in
  let twice := toggleCalendarSelection calendarId once in
  map Calendar.id twice = map Calendar.id prev
  /\ (forall i cal,
        nth_error prev i = Some cal ->
        exists cal1 cal2,
          nth_error once i = Some cal1 /\ nth_error twice i = Some cal2
          /\ (Calendar.id cal <> calendarId -> cal1 = cal /\ cal2 = cal)
          /\ (Calendar.id cal = calendarId ->
              Calendar.selected cal1
              = Some (negb (match Calendar.selected cal with
                            | Some b => b
                            | None => false
                            end))
              /\ Calendar.selected cal2
                 = Some (match Calendar.selected cal with
                         | Some b => b
                         | None => false
                         end)
              /\ (Calendar.selected cal <> None -> cal2 = cal))).
Proof.
  cbv zeta. split.
  - unfold toggleCalendarSelection. rewrite !map_map. apply map_ext. intros cal.
    destruct (String.eqb (Calendar.id cal) calendarId) eqn:E; cbn [Calendar.id].
    + rewrite E. reflexivity.
    + rewrite E. reflexivity.
  - intros i cal Hi. unfold toggleCalendarSelection.
    rewrite map_map, !nth_error_map, Hi. cbn [option_map].
    eexists. eexists. split; [reflexivity|]. split; [reflexivity|].
    destruct (String.eqb_spec (Calendar.id cal) calendarId) as [E | N].
    + cbn [Calendar.id]. rewrite E, String.eqb_refl.
      cbn [Calendar.selected]. split; [congruence|]. intros _.
      split; [reflexivity|]. split.
      * rewrite negb_involutive. reflexivity.
      * intros Hs. destruct cal as [? ? ? ? ? ? [b|]]; cbn in *; [|congruence].
        rewrite negb_involutive. subst. reflexivity.
    + destruct (String.eqb_spec (Calendar.id cal) calendarId); [contradiction|].
      split; [auto | contradiction].
Qed.

Section LocalTime.

Variable tz : Z.

Lemma startOfDay_endOfDay date t :
  (DateFns.startOfDay tz date <=? t) && (t <=? DateFns.endOfDay tz date) = true
  <-> Day (LocalTime tz t) = Day (LocalTime tz date).
Proof.
  rewrite andb_true_iff, !Z.leb_le.
  unfold DateFns.startOfDay, DateFns.endOfDay, setHours, MakeDate, MakeTime, UTC.
  set (D := Day (LocalTime tz date)).
  unfold Day, LocalTime, msPerDay, msPerHour, msPerMinute, msPerSecond.
  set (z := LocalTZA tz). clearbody D z. zdiv.
Qed.


(** X28.  The events of a day are the events that start on that calendar
    day, from 00:00:00.000 to 23:59:59.999 local time; the time of
    day of [date] does not matter. *)
Theorem getEventsForDay_same_day events0 date event :
  In event (getEventsForDay tz events0 date)
  <-> In event events0
      /\ Day (LocalTime tz (newDate tz (dateTime (start event)))) = Day (LocalTime tz date).
Proof.
  unfold getEventsForDay. rewrite filter_In. cbv zeta.
  rewrite startOfDay_endOfDay. reflexivity.
Qed.





Lemma Day_LocalTime_UTC_days d time :
  0 <= time < msPerDay ->
  Day (LocalTime tz (UTC tz (d * msPerDay + time))) = d.
Proof.
  intros H. rewrite LocalTime_UTC. apply (Day_MakeDate d time H).
Qed.


End LocalTime.

End CalendarFacts.

(* ================================================================= *)
(** * The to-do store and the labels of the to-do rows                *)
(* ================================================================= *)

Module TodoStoreFacts.
Import JS Runtime TodosContext TodosList DateFacts.

Lemma find_todo_filter_same id' todos0 :
  find_todo id' (filter (fun todo => negb (String.eqb (id todo) id')) todos0) = None.
Proof.
  unfold find_todo.
  induction todos0 as [|c todos0 IH]; cbn; [reflexivity|].
  destruct (String.eqb (id c) id') eqn:E; cbn; [exact IH|].
  rewrite E. exact IH.
Qed.

Lemma find_todo_filter_other id' other todos0 :
  other <> id' ->
  find_todo other (filter (fun todo => negb (String.eqb (id todo) id')) todos0)
  = find_todo other todos0.
Proof.
  unfold find_todo. intros Hne.
  induction todos0 as [|c todos0 IH]; cbn; [reflexivity|].
  destruct (String.eqb_spec (id c) id') as [E | N]; cbn.
  - destruct (String.eqb_spec (id c) other); [congruence | exact IH].
  - destruct (String.eqb (id c) other); [reflexivity | exact IH].
Qed.



(** X24.  Deleting a to-do removes every to-do of that id and no other:
    the others are found as before, and toggling or updating the
    deleted to-do throws. *)
Theorem deleteTodo_removes env id' todos0 todos1 updates :
  deleteTodo env id' todos0 = Some todos1 ->
  find_todo id' todos1 = None
  /\ (forall other, other <> id' -> find_todo other todos1 = find_todo other todos0)
  /\ (forall todo, In todo todos1 <-> In todo todos0 /\ id todo <> id')
  /\ toggleTodoStatus env id' todos1 = None
  /\ updateTodo env id' updates todos1 = None.
Proof.
  unfold deleteTodo. destruct (currentFamily env) as [f|] eqn:Hf; [|discriminate].
  intros [= <-].
  pose proof (find_todo_filter_same id' todos0) as Hnone.
  split; [exact Hnone|]. split; [|split; [|split]].
  - intros other Hne. apply find_todo_filter_other. exact Hne.
  - intros todo. rewrite filter_In, negb_true_iff.
    destruct (String.eqb_spec (id todo) id'); split; intros [H1 H2];
      split; congruence.
  - unfold toggleTodoStatus. rewrite Hnone. reflexivity.
  - unfold updateTodo. rewrite Hf, Hnone. reflexivity.
Qed.


Section LocalTime.

Variable tz : Z.

Lemma format_MMM_d_labels date :
  DateFns.format_MMM_d tz date <> "Today"%string
  /\ DateFns.format_MMM_d tz date <> "Tomorrow"%string
  /\ String.prefix "Overdue: " (DateFns.format_MMM_d tz date) = false.
Proof.
  unfold DateFns.format_MMM_d.
  pose proof (ChoreListFacts.MMM_cases (getMonth tz date)) as H.
  set (d := decimal (getDate tz date)). clearbody d.
  cbn in H.
  repeat (destruct H as [<- | H]; [cbn; repeat split; discriminate|]).
  contradiction.
Qed.

(** X26.  The due label of a to-do row against the group it is under: the
    label is "Today" exactly under "Today" and "Tomorrow" exactly
    under "Tomorrow"; under "Overdue" it starts with "Overdue: ";
    and a completed to-do that is past due keeps the "Overdue: "
    label while it is listed under "This Week". *)
Theorem formatDueDate_group now todo d :
  due_date todo = Some d ->
  (formatDueDate tz now (due_date todo) = "Today"%string
     <-> group_of tz now todo = today)
  /\ (formatDueDate tz now (due_date todo) = "Tomorrow"%string
     <-> group_of tz now todo = tomorrow)
  /\ (group_of tz now todo = overdue ->
      String.prefix "Overdue: " (formatDueDate tz now (due_date todo)) = true)
  /\ (status todo = completed ->
      Day (LocalTime tz (newDate tz d)) < Day (LocalTime tz now) ->
      String.prefix "Overdue: " (formatDueDate tz now (due_date todo)) = true
      /\ group_of tz now todo = thisWeek).
Proof.
  intros Hd.
  destruct (TodoListFacts.group_of_days tz now todo d Hd) as (Hpast & _).
  cbv zeta in Hpast.
  assert (Day (LocalTime tz (newDate tz d)) < Day (LocalTime tz now) ->
          DateFns.isToday tz now (newDate tz d) = false
          /\ DateFns.isTomorrow tz now (newDate tz d) = false
          /\ DateFns.isBefore (newDate tz d) now = true) as Hearlier.
  { intros Hlt. rewrite TodoListFacts.isToday_eq, TodoListFacts.isTomorrow_eq.
    split; [apply Z.eqb_neq; lia|]. split; [apply Z.eqb_neq; lia|].
    unfold DateFns.isBefore. apply Z.ltb_lt.
    destruct (Z.lt_ge_cases (newDate tz d) now) as [H | H]; [exact H|].
    pose proof (TodoListFacts.Day_LocalTime_mono tz _ _ H). lia. }
  assert (DateFns.isToday tz now (newDate tz d) = true ->
          DateFns.isTomorrow tz now (newDate tz d) = false) as Hexcl.
  { rewrite TodoListFacts.isToday_eq, TodoListFacts.isTomorrow_eq.
    intros H. apply Z.eqb_eq in H. apply Z.eqb_neq. lia. }
  assert (DateFns.isTomorrow tz now (newDate tz d) = true ->
          DateFns.isBefore (newDate tz d) now = false) as Hahead.
  { rewrite TodoListFacts.isTomorrow_eq. intros H. apply Z.eqb_eq in H.
    unfold DateFns.isBefore. apply Z.ltb_ge.
    destruct (Z.lt_ge_cases (newDate tz d) now) as [Hlt | Hge]; [|lia].
    assert (newDate tz d <= now) as Hle by lia.
    pose proof (TodoListFacts.Day_LocalTime_mono tz _ _ Hle). lia. }
  revert Hpast. unfold group_of, formatDueDate. rewrite Hd. cbv zeta.
  destruct (format_MMM_d_labels (newDate tz d)) as (H1 & H2 & H3).
  set (text := DateFns.format_MMM_d tz (newDate tz d)) in *. clearbody text.
  assert (String.prefix "Overdue: " ("Overdue: " ++ text) = true) as Hpre
    by (cbn; destruct text; reflexivity).
  assert (("Overdue: " ++ text)%string <> "Today"%string) as H4
    by (cbn; discriminate).
  assert (("Overdue: " ++ text)%string <> "Tomorrow"%string) as H5
    by (cbn; discriminate).
  set (label := ("Overdue: " ++ text)%string) in *. clearbody label.
  set (w := DateFns.isBefore (newDate tz d) (setDate tz now (getDate tz now + 7))).
  clearbody w.
  destruct (DateFns.isToday tz now (newDate tz d)) eqn:Ht;
    destruct (DateFns.isTomorrow tz now (newDate tz d)) eqn:Hm;
    try (specialize (Hexcl eq_refl); discriminate);
    destruct (DateFns.isBefore (newDate tz d) now) eqn:Hb;
    try (specialize (Hahead eq_refl); discriminate);
    destruct (Status_eqb (status todo) completed) eqn:Hc;
    destruct w;
    cbn [andb negb];
    intros Hpast;
    (split; [|split; [|split]]);
    try (split; intros E; congruence);
    try (intros E; congruence);
    try (intros _ Hlt; destruct (Hearlier Hlt) as (E1 & E2 & E3); congruence);
    try (intros Hs; rewrite Hs in Hc; discriminate).
  all: intros _ Hlt; split; [exact Hpre | exact (Hpast Hlt)].
Qed.

End LocalTime.

End TodoStoreFacts.

(* ================================================================= *)
(** * The facts above at concrete cases                               *)
(* ================================================================= *)

Module Scenarios.
Import JS Runtime.


(** Signed out, nothing is created and nothing completed. *)
Lemma no_family_throws_witness :
  ChoresContext.createChore 0 Cases.signed_out
    (ChoresForm.choreData Examples.dishes_form) [Examples.daily_fixed] = None
  /\ ChoresContext.completeChore 0 Cases.signed_out "chore-1"
       [Examples.daily_fixed] = None.
Proof.
  destruct (StoreFacts.no_family_throws 0 Cases.signed_out
              (ChoresForm.choreData Examples.dishes_form) (Cases.rename "Bins")
              "chore-1"%string [Examples.daily_fixed] eq_refl)
    as (H1 & _ & _ & H4).
  split; [exact H1 | exact H4].
Defined.



(** The bins chore deleted, the dishes kept. *)
Lemma deleteChore_removes_witness :
  ChoresContext.deleteChore (Examples.env Examples.june_10) "chore-1"
    [Examples.daily_fixed; Examples.dishes_created] = Some [Examples.dishes_created]
  /\ ChoresContext.completeChore 0 (Examples.env Examples.june_10) "chore-1"
       [Examples.dishes_created] = None.
Proof.
  assert (ChoresContext.deleteChore (Examples.env Examples.june_10) "chore-1"
            [Examples.daily_fixed; Examples.dishes_created]
          = Some [Examples.dishes_created]) as H by reflexivity.
  destruct (StoreFacts.deleteChore_removes 0 _ _ _ _ (Cases.rename "Bins") H)
    as (_ & _ & _ & H4 & _).
  split; [exact H | exact H4].
Defined.

(** The dishes, completed at 2024-06-10T09:00:00Z, a week before
    they were due. *)
Lemma completeChore_recently_completed_witness :
  ChoresContext.completeChore 0 (Examples.env Examples.june_10) "chore-2"
    [Examples.dishes_created]
    = Some (Examples.dishes_completed, [Examples.dishes_completed])
  /\ ChoresList.group_of 0 Examples.june_10 Examples.dishes_completed
     = ChoresList.completed.
Proof.
  assert (ChoresContext.completeChore 0 (Examples.env Examples.june_10) "chore-2"
            [Examples.dishes_created]
          = Some (Examples.dishes_completed, [Examples.dishes_completed])) as H
    by (vm_compute; reflexivity).
  split; [exact H|].
  exact (StoreFacts.completeChore_recently_completed 0 _ _ _ _ _ H).
Defined.

Lemma completeChore_not_due_witness :
  ChoresContext.completeChore 0 (Examples.env Examples.june_10) "chore-2"
    [Examples.dishes_created]
    = Some (Examples.dishes_completed, [Examples.dishes_completed])
  /\ exists nd,
       ChoresContext.next_due Examples.dishes_completed = Some nd
       /\ Examples.june_10 < newDate 0 nd.
Proof.
  assert (ChoresContext.completeChore 0 (Examples.env Examples.june_10) "chore-2"
            [Examples.dishes_created]
          = Some (Examples.dishes_completed, [Examples.dishes_completed])) as H
    by (vm_compute; reflexivity).
  split; [exact H|].
  exact (proj1 (StoreFacts.completeChore_not_due 0 _ _ _ _ _ H)).
Defined.


(** The "Due" tab at 2024-06-10T09:00:00Z with one chore, due the
    day before. *)
Lemma due_tab_groups_witness :
  In Cases.overdue_group
     (ChoresList.groupedChores 0 Cases.localeCompare ChoresList.Filter.due
        (Some "alice"%string) Examples.june_10 [Examples.due_june_9])
  /\ ChoresList.label Cases.overdue_group <> "Upcoming"%string.
Proof.
  assert (In Cases.overdue_group
            (ChoresList.groupedChores 0 Cases.localeCompare ChoresList.Filter.due
               (Some "alice"%string) Examples.june_10 [Examples.due_june_9])) as H
    by (vm_compute; left; reflexivity).
  split; [exact H|].
  exact (ChoreListFacts.due_tab_groups 0 Cases.localeCompare _ _ _ _ H).
Defined.

(** The "Completed" tab with the dishes, completed that day. *)
Lemma completed_tab_groups_witness :
  In Cases.completed_group
     (ChoresList.groupedChores 0 Cases.localeCompare ChoresList.Filter.completed
        (Some "alice"%string) Examples.june_10 [Examples.dishes_completed])
  /\ ChoresList.label Cases.completed_group = "Recently Completed"%string.
Proof.
  assert (In Cases.completed_group
            (ChoresList.groupedChores 0 Cases.localeCompare
               ChoresList.Filter.completed
               (Some "alice"%string) Examples.june_10 [Examples.dishes_completed]))
    as H by (vm_compute; left; reflexivity).
  split; [exact H|].
  exact (ChoreListFacts.completed_tab_groups 0 Cases.localeCompare _ _ _ _ H).
Defined.

(** The chore due on 2024-06-09, looked at the day after. *)
Lemma formatDueDate_agrees_witness :
  ChoresList.group_of 0 Examples.june_10 Examples.due_june_9 <> ChoresList.completed
  /\ String.prefix "Overdue: "
       (ChoresList.formatDueDate 0 Examples.june_10
          (ChoresContext.next_due Examples.due_june_9)) = true.
Proof.
  assert (ChoresList.group_of 0 Examples.june_10 Examples.due_june_9
          <> ChoresList.completed) as H by (vm_compute; discriminate).
  split; [exact H|].
  destruct (ChoreListFacts.formatDueDate_agrees 0 Examples.june_10
              Examples.due_june_9 H) as (_ & H2 & _).
  apply H2. vm_compute. reflexivity.
Defined.

(** The dishes form, submitted to create. *)
Lemma handleSubmit_create_witness :
  ChoresForm.invoked
    (ChoresForm.handleSubmit 0 (Examples.env Examples.june_10)
       Examples.create_props Examples.dishes_form [])
  = [ChoresForm.call_createChore (ChoresForm.choreData Examples.dishes_form)].
Proof.
  exact (proj1 (FormMoreFacts.handleSubmit_create 0 (Examples.env Examples.june_10)
                  Examples.create_props Examples.dishes_form []
                  eq_refl (or_introl eq_refl))).
Defined.

(** The dishes form, submitted to edit the bins chore. *)
Lemma handleSubmit_edit_witness :
  ChoresForm.closed
    (ChoresForm.handleSubmit 0 (Examples.env Examples.june_10)
       Cases.edit_props Examples.dishes_form [Examples.daily_fixed]) = true.
Proof.
  destruct (FormMoreFacts.handleSubmit_edit 0 (Examples.env Examples.june_10)
              Cases.edit_props Examples.dishes_form [Examples.daily_fixed]
              "chore-1"%string Examples.daily_fixed "family"%string
              eq_refl eq_refl eq_refl eq_refl eq_refl eq_refl eq_refl)
    as (_ & H & _).
  exact H.
Defined.

(** A pending to-do, toggled twice. *)
Lemma toggleTodoStatus_twice_witness :
  exists todo1 todos1,
    TodosContext.toggleTodoStatus (Examples.env Examples.june_10) "todo-1"
      [Examples.todo TodosContext.pending] = Some (todo1, todos1)
    /\ TodosContext.toggleTodoStatus (Examples.env Examples.june_10) "todo-1" todos1
       = Some (Examples.todo TodosContext.pending,
               [Examples.todo TodosContext.pending]).
Proof.
  destruct (TodoListFacts.toggleTodoStatus_twice (Examples.env Examples.june_10)
              "todo-1"%string [Examples.todo TodosContext.pending]
              (Examples.todo TodosContext.pending) "family"%string
              eq_refl eq_refl eq_refl)
    as (todo1 & todos1 & todo2 & H1 & H2 & _ & H4).
  rewrite (H4 ltac:(discriminate)) in H2.
  exists todo1, todos1. split; [exact H1 | exact H2].
Defined.

(** A to-do due on Monday 2024-06-10, looked at on the Sunday
    after. *)
Lemma group_of_days_witness :
  TodosList.group_of 0 Examples.june_16 (Cases.dated_todo TodosContext.pending)
  = TodosList.overdue.
Proof.
  destruct (TodoListFacts.group_of_days 0 Examples.june_16
              (Cases.dated_todo TodosContext.pending)
              (ISOString Examples.june_10) eq_refl) as (H & _).
  apply H. vm_compute. reflexivity.
Defined.

Lemma deleteTodo_removes_witness :
  TodosContext.deleteTodo (Examples.env Examples.june_10) "todo-1"
    [Examples.todo TodosContext.pending; Cases.dated_todo TodosContext.pending]
  = Some [Cases.dated_todo TodosContext.pending]
  /\ TodosContext.toggleTodoStatus (Examples.env Examples.june_10) "todo-1"
       [Cases.dated_todo TodosContext.pending] = None.
Proof.
  assert (TodosContext.deleteTodo (Examples.env Examples.june_10) "todo-1"
            [Examples.todo TodosContext.pending;
             Cases.dated_todo TodosContext.pending]
          = Some [Cases.dated_todo TodosContext.pending]) as H by reflexivity.
  destruct (TodoStoreFacts.deleteTodo_removes _ _ _ _
              {| TodosContext.Partial.title := None;
                 TodosContext.Partial.description := Undefined;
                 TodosContext.Partial.due_date := Undefined;
                 TodosContext.Partial.priority := None;
                 TodosContext.Partial.status := None;
                 TodosContext.Partial.assigned_to := Undefined |} H)
    as (_ & _ & _ & H4 & _).
  split; [exact H | exact H4].
Defined.


(** A completed to-do that was due on Monday 2024-06-10, looked at
    on the Sunday after. *)
Lemma formatDueDate_group_witness :
  String.prefix "Overdue: "
    (TodosList.formatDueDate 0 Examples.june_16
       (TodosContext.due_date (Cases.dated_todo TodosContext.completed))) = true
  /\ TodosList.group_of 0 Examples.june_16 (Cases.dated_todo TodosContext.completed)
     = TodosList.thisWeek.
Proof.
  destruct (TodoStoreFacts.formatDueDate_group 0 Examples.june_16
              (Cases.dated_todo TodosContext.completed)
              (ISOString Examples.june_10) eq_refl) as (_ & _ & _ & H).
  apply H; [reflexivity | vm_compute; reflexivity].
Defined.

End Scenarios.
